(** * vedirect_m8: the VE.Direct text-protocol decoder and its serial controller

    A shallow embedding of [vedirect_m8/vedirect.py] (class [Vedirect]) and
    [vedirect_m8/ve_controller.py] (class [VedirectController]).

    - Python values handed to [input_read] are modelled by [pyobj]; the three
      primitives the decoder applies to them ([ord], [==] against an [int],
      [.decode('ascii')]) follow Python 3.
    - The decoder attributes ([key], [value], [bytes_sum], [state], [dict])
      form the record [decoder]; [input_read] returns the mutated record
      together with what the call returned or raised, so the partial mutation
      that precedes a raise is kept.
    - The serial side is explicit state passing over a [world]: the object
      attributes, the bytes the port will deliver, the clock, and the log of
      callback invocations. Unbounded [while] loops take fuel. *)

From Stdlib Require Import ZArith QArith Strings.Byte Ascii String List Bool Lia.
From stdpp Require Import gmap strings.
Import ListNotations.
Local Open Scope string_scope.
Local Open Scope list_scope.
Local Open Scope Z_scope.

(** ** Python values *)

(** What a caller can pass as [byte]: [serial.read(1)] yields a [bytes]
    object of length 0 or 1, the tests also pass a [str]. *)
Inductive pyobj : Type :=
| PyBytes (bs : list byte)
| PyStr (s : string)
| PyInt (n : Z)
| PyNone.

Definition nbyte_of (b : byte) : Z := Z.of_N (Byte.to_N b).

(** [ord(x)]: defined on a [bytes] or [str] of length one, [TypeError]
    (here [None]) on anything else. *)
Definition py_ord (o : pyobj) : option Z :=
  match o with
  | PyBytes [b] => Some (nbyte_of b)
  | PyStr (String c EmptyString) => Some (Z.of_N (N_of_ascii c))
  | _ => None
  end.

(** [x == n] for an [int] n: a [bytes], a [str] or [None] is never equal to
    an [int]. *)
Definition py_eq_int (o : pyobj) (n : Z) : bool :=
  match o with
  | PyInt m => Z.eqb m n
  | _ => false
  end.

(** [x.decode('ascii')]: [UnicodeDecodeError] on a byte above 0x7f, and
    [AttributeError] on a [str] (both [None] here). *)
Definition py_decode_ascii (o : pyobj) : option string :=
  match o with
  | PyBytes bs =>
      if forallb (fun b => nbyte_of b <? 128) bs
      then Some (string_of_list_byte bs)
      else None
  | _ => None
  end.

(** [x == b'\x00'] for a [bytes] object x. *)
Definition is_nul (bs : list byte) : bool :=
  match bs with
  | [b] => Byte.eqb b x00
  | _ => false
  end.

(** ** Exceptions and results *)

Inductive exn : Type :=
| InputReadException
| TimeoutException
| VedirectException
| SettingInvalidException
| SerialException
| AttributeError.

Inductive outcome (A : Type) : Type :=
| Ret (a : A)
| Raise (e : exn)
| OutOfFuel.
Arguments Ret {A} a.
Arguments Raise {A} e.
Arguments OutOfFuel {A}.

(** ** The decoder *)

(** [(HEX, WAIT_HEADER, IN_KEY, IN_VALUE, IN_CHECKSUM) = range(5)]. The
    attribute only ever holds one of these five, so the final
    [raise AssertionError()] of [input_read] has no counterpart. *)
Inductive dstate : Type := HEX | WAIT_HEADER | IN_KEY | IN_VALUE | IN_CHECKSUM.

Definition dstate_eqb (a b : dstate) : bool :=
  match a, b with
  | HEX, HEX | WAIT_HEADER, WAIT_HEADER | IN_KEY, IN_KEY
  | IN_VALUE, IN_VALUE | IN_CHECKSUM, IN_CHECKSUM => true
  | _, _ => false
  end.

Definition header1 : Z := 13.   (* ord('\r') *)
Definition header2 : Z := 10.   (* ord('\n') *)
Definition hexmarker : Z := 58. (* ord(':')  *)
Definition delimiter : Z := 9.  (* ord('\t') *)

Record decoder : Type := mkDecoder {
  key : string;
  value : string;
  bytes_sum : Z;
  state : dstate;
  dict : gmap string string
}.

Definition set_key (k : string) (d : decoder) : decoder :=
  mkDecoder k (value d) (bytes_sum d) (state d) (dict d).
Definition set_value (v : string) (d : decoder) : decoder :=
  mkDecoder (key d) v (bytes_sum d) (state d) (dict d).
Definition set_bytes_sum (s : Z) (d : decoder) : decoder :=
  mkDecoder (key d) (value d) s (state d) (dict d).
Definition set_state (s : dstate) (d : decoder) : decoder :=
  mkDecoder (key d) (value d) (bytes_sum d) s (dict d).
Definition set_dict (m : gmap string string) (d : decoder) : decoder :=
  mkDecoder (key d) (value d) (bytes_sum d) (state d) m.

(** [Vedirect.init_data_read], also the attribute values set by [__init__]. *)
Definition init_data_read : decoder := mkDecoder "" "" 0 WAIT_HEADER ∅.

(** [Vedirect.input_read]. Every exception raised in the body is turned into
    [InputReadException]; the attributes assigned before the raise stay
    assigned. A returned block is the [dict] attribute itself. *)
Definition input_read (self : decoder) (byte : pyobj)
  : decoder * outcome (option (gmap string string)) :=
  match py_ord byte with
  | None => (self, Raise InputReadException)
  | Some nbyte =>
      let self :=
        if py_eq_int byte hexmarker && negb (dstate_eqb (state self) IN_CHECKSUM)
        then set_state HEX self else self in
      match state self with
      | WAIT_HEADER =>
          let self := set_bytes_sum (bytes_sum self + nbyte) self in
          let self :=
            if nbyte =? header1 then set_state WAIT_HEADER self
            else if nbyte =? header2 then set_state IN_KEY self
            else self in
          (self, Ret None)
      | IN_KEY =>
          let self := set_bytes_sum (bytes_sum self + nbyte) self in
          if nbyte =? delimiter then
            if String.eqb (key self) "Checksum"
            then (set_state IN_CHECKSUM self, Ret None)
            else (set_state IN_VALUE self, Ret None)
          else
            match py_decode_ascii byte with
            | Some s => (set_key (key self ++ s)%string self, Ret None)
            | None => (self, Raise InputReadException)
            end
      | IN_VALUE =>
          let self := set_bytes_sum (bytes_sum self + nbyte) self in
          if nbyte =? header1 then
            let self := set_state WAIT_HEADER self in
            let self := set_dict (<[key self := value self]> (dict self)) self in
            let self := set_key "" self in
            let self := set_value "" self in
            (self, Ret None)
          else
            match py_decode_ascii byte with
            | Some s => (set_value (value self ++ s)%string self, Ret None)
            | None => (self, Raise InputReadException)
            end
      | IN_CHECKSUM =>
          let self := set_bytes_sum (bytes_sum self + nbyte) self in
          let self := set_key "" self in
          let self := set_value "" self in
          let self := set_state WAIT_HEADER self in
          if bytes_sum self mod 256 =? 0
          then (set_bytes_sum 0 self, Ret (Some (dict self)))
          else (set_bytes_sum 0 self, Ret None)
      | HEX =>
          let self := set_bytes_sum 0 self in
          if nbyte =? header2
          then (set_state WAIT_HEADER self, Ret None)
          else (self, Ret None)
      end
  end.

(** Feeding a sequence of inputs one call at a time, the caller going on
    after a raise: the final attributes, and what each call produced. *)
Definition feed (self : decoder) (l : list pyobj) : decoder :=
  fold_left (fun d b => fst (input_read d b)) l self.

Fixpoint feed_out (self : decoder) (l : list pyobj)
  : list (outcome (option (gmap string string))) :=
  match l with
  | [] => []
  | b :: l' => snd (input_read self b) :: feed_out (fst (input_read self b)) l'
  end.

(** A [bytes] object of length one per byte, as [serial.read(1)] yields. *)
Definition singles (bs : list byte) : list pyobj := map (fun b => PyBytes [b]) bs.

Definition sum_bytes (bs : list byte) : Z :=
  fold_right (fun b acc => nbyte_of b + acc) 0 bs.

(** [pre] ends where a frame ends: nothing was fed yet, or its last byte
    was the one consumed in IN_CHECKSUM. *)
Definition frame_boundary (pre : list byte) : Prop :=
  pre = [] \/
  exists pre' c, pre = pre' ++ [c]
                 /\ state (feed init_data_read (singles pre')) = IN_CHECKSUM.

(** No byte of [f], fed after [pre], is consumed in IN_CHECKSUM. *)
Definition no_checksum_inside (pre f : list byte) : Prop :=
  forall f1 c f2, f = f1 ++ c :: f2 ->
    state (feed init_data_read (singles (pre ++ f1))) <> IN_CHECKSUM.

(** Frames used in the examples. *)
Definition CR : list byte := [x0d].
Definition LF : list byte := [x0a].
Definition TAB : list byte := [x09].
Definition B (s : string) : list byte := list_byte_of_string s.

(** The byte that brings the sum of [bs] followed by it to 0 mod 256. *)
Definition checksum_byte (bs : list byte) : byte :=
  match Byte.of_N (Z.to_N ((256 - sum_bytes bs mod 256) mod 256)) with
  | Some b => b
  | None => x00
  end.

Definition with_checksum (bs : list byte) : list byte := bs ++ [checksum_byte bs].

(** [\r\nPID\t0x203\r\nChecksum\t<C>] *)
Definition frame_pid : list byte :=
  with_checksum (CR ++ LF ++ B "PID" ++ TAB ++ B "0x203" ++ CR ++ LF ++ B "Checksum" ++ TAB).

(** [\r\nV\t12800\r\nChecksum\t<C>] *)
Definition frame_v : list byte :=
  with_checksum (CR ++ LF ++ B "V" ++ TAB ++ B "12800" ++ CR ++ LF ++ B "Checksum" ++ TAB).

(** ** Timeouts *)

(** Python [int]s and finite [float]s are rationals and compare exactly, so
    elapsed times and limits are taken in [Q]. *)

(** [Vedirect.is_timeout] (static). *)
Definition is_timeout (elapsed timeout : Q) : outcome bool :=
  if Qle_bool timeout elapsed then Raise TimeoutException else Ret true.

(** ** The serial side *)

(** pyserial's [Serial] object: the two attributes the code touches. *)
Record Serial : Type := mkSerial {
  timeout : option Q;
  is_open : bool
}.

(** [SerialConnection]: the attributes the code touches. *)
Record SerialConnection : Type := mkCom {
  _serial_port : string;
  _timeout : option Q;
  ser : option Serial
}.

(** What [serconnect.py], [sertest.py] and the operating system contribute:
    their methods are called by the code above but are not part of it, so
    they are taken as an interface. [env] is the state of the outside world
    (which ports exist, what is plugged in); [helper] is a
    [SerialTestHelper] object. *)
Class Collaborators : Type := {
  env : Type;
  helper : Type;
  (* SerialConnection.is_ready(self) *)
  com_is_ready : SerialConnection -> bool;
  (* SerialConnection.connect(self, serial_port=port, timeout=t) *)
  com_connect : env -> SerialConnection -> string -> option Q
                -> env * SerialConnection * bool;
  (* SerialConnection.get_serial_ports_list(self) *)
  com_get_serial_ports_list : env -> SerialConnection -> env * list string;
  (* SerialConnection.is_serial_port(port), static *)
  is_serial_port : string -> bool;
  (* SerialTestHelper.has_serial_tests(self) *)
  has_serial_tests : helper -> bool;
  (* SerialTestHelper.run_serial_tests(self, data) *)
  run_serial_tests : helper -> option (gmap string string) -> bool
}.

(** One call of [ser.read(1)]: the bytes it returns (none on a read
    timeout), or a [serial.SerialException]. *)
Inductive rx_event : Type :=
| RxBytes (bs : list byte)
| RxError.

(** The class of the object a method is called on: [is_ready] is overridden
    by the controller and is looked up dynamically. *)
Inductive klass : Type := Vedirect | VedirectController.

Section Supervisor.
Context {C : Collaborators}.

(** The object and what surrounds it. [rx n] is the result of the n-th call
    of [ser.read(1)] and [clock n] the n-th reading of [time.time()];
    [calls] logs the arguments the callback was invoked with. *)
Record world : Type := mkWorld {
  this : decoder;
  _com : option SerialConnection;
  _ser_test : option helper;
  rx : nat -> rx_event;
  rx_pos : nat;
  clock : nat -> Q;
  ticks : nat;
  calls : list (option (gmap string string));
  outside : env
}.

Definition set_this (d : decoder) (w : world) : world :=
  mkWorld d (_com w) (_ser_test w) (rx w) (rx_pos w) (clock w) (ticks w) (calls w) (outside w).
Definition set_com (c : option SerialConnection) (w : world) : world :=
  mkWorld (this w) c (_ser_test w) (rx w) (rx_pos w) (clock w) (ticks w) (calls w) (outside w).
Definition set_rx_pos (n : nat) (w : world) : world :=
  mkWorld (this w) (_com w) (_ser_test w) (rx w) n (clock w) (ticks w) (calls w) (outside w).
Definition set_ticks (n : nat) (w : world) : world :=
  mkWorld (this w) (_com w) (_ser_test w) (rx w) (rx_pos w) (clock w) n (calls w) (outside w).
Definition set_calls (l : list (option (gmap string string))) (w : world) : world :=
  mkWorld (this w) (_com w) (_ser_test w) (rx w) (rx_pos w) (clock w) (ticks w) l (outside w).
Definition set_outside (e : env) (w : world) : world :=
  mkWorld (this w) (_com w) (_ser_test w) (rx w) (rx_pos w) (clock w) (ticks w) (calls w) e.

(** Computations over the world that return, raise or run out of fuel. *)
Definition M (A : Type) : Type := world -> world * outcome A.

Definition ret {A} (a : A) : M A := fun w => (w, Ret a).
Definition raise {A} (e : exn) : M A := fun w => (w, Raise e).
Definition out_of_fuel {A} : M A := fun w => (w, OutOfFuel).
Definition bind {A B} (m : M A) (k : A -> M B) : M B :=
  fun w =>
    match m w with
    | (w', Ret a) => k a w'
    | (w', Raise e) => (w', Raise e)
    | (w', OutOfFuel) => (w', OutOfFuel)
    end.
Definition gets {A} (f : world -> A) : M A := fun w => (w, Ret (f w)).
Definition modify (f : world -> world) : M unit := fun w => (f w, Ret tt).
Definition lift {A} (o : outcome A) : M A := fun w => (w, o).

(** [try: m  except (classes) as ex: h ex]. *)
Definition try_except {A} (m : M A) (caught : exn -> bool) (h : exn -> M A) : M A :=
  fun w =>
    match m w with
    | (w', Raise e) => if caught e then h e w' else (w', Raise e)
    | r => r
    end.

Notation "x <- m ;; k" := (bind m (fun x => k))
  (at level 100, m at next level, right associativity).
Notation "m ;;; k" := (bind m (fun _ => k))
  (at level 100, right associativity).

(** [time.time()] *)
Definition time_time : M Q :=
  fun w => (set_ticks (S (ticks w)) w, Ret (clock w (ticks w))).

(** [time.sleep(s)]: only the clock, which is arbitrary, could tell. *)
Definition time_sleep (s : Q) : M unit := ret tt.

(** [self._com.ser.read(1)] *)
Definition ser_read : M (list byte) :=
  fun w =>
    match _com w with
    | None => (w, Raise AttributeError)
    | Some c =>
        match ser c with
        | None => (w, Raise AttributeError)
        | Some _ =>
            match rx w (rx_pos w) with
            | RxBytes bs => (set_rx_pos (S (rx_pos w)) w, Ret bs)
            | RxError => (set_rx_pos (S (rx_pos w)) w, Raise SerialException)
            end
        end
    end.

(** [self.input_read(byte)] on the object of the world. *)
Definition do_input_read (byte : pyobj) : M (option (gmap string string)) :=
  fun w => let (d, o) := input_read (this w) byte in (set_this d w, o).

(** [callback_function(packet)]: the callback is taken to return. *)
Definition callback (a : option (gmap string string)) : M unit :=
  modify (fun w => set_calls (calls w ++ [a]) w).

Definition has_serial_com (w : world) : bool :=
  match _com w with Some _ => true | None => false end.

Definition is_serial_ready (w : world) : bool :=
  match _com w with Some c => com_is_ready c | None => false end.

Definition has_serial_test (w : world) : bool :=
  match _ser_test w with Some h => has_serial_tests h | None => false end.

(** [Vedirect.is_ready] and its override [VedirectController.is_ready]. *)
Definition is_ready (k : klass) (w : world) : bool :=
  match k with
  | Vedirect => is_serial_ready w
  | VedirectController => is_serial_ready w && has_serial_test w
  end.

Definition is_ready_to_search_ports (w : world) : bool :=
  has_serial_com w && has_serial_test w.

(** [Vedirect.get_serial_packet] *)
Definition get_serial_packet : M (option (gmap string string)) :=
  byte <- ser_read ;;
  if is_nul byte
  then (byte <- ser_read ;; do_input_read (PyBytes byte))
  else do_input_read (PyBytes byte).

(** The [while bc:] loop of [Vedirect.read_data_single]. *)
Fixpoint read_data_single_loop (fuel : nat) (now timeout : Q)
  : M (option (gmap string string)) :=
  match fuel with
  | O => out_of_fuel
  | S fuel' =>
      tim <- time_time ;;
      packet <- get_serial_packet ;;
      match packet with
      | Some p => ret (Some p)
      | None =>
          lift (is_timeout (tim - now) timeout) ;;;
          read_data_single_loop fuel' now timeout
      end
  end.

(** [Vedirect.read_data_single], called on an object of class [k]. *)
Definition read_data_single (k : klass) (fuel : nat) (timeout : Q)
  : M (option (gmap string string)) :=
  now <- time_time ;;
  ready <- gets (is_ready k) ;;
  if ready then read_data_single_loop fuel now timeout
  else ret None.

(** The [while bc:] loop of [Vedirect.read_data_callback]; [i] counts the
    delivered blocks. *)
Fixpoint Vedirect_read_data_callback_loop (fuel : nat) (now timeout : Q)
    (max_loops : option Z) (i : Z) : M (option bool) :=
  match fuel with
  | O => out_of_fuel
  | S fuel' =>
      tim <- time_time ;;
      packet <- get_serial_packet ;;
      ni <- match packet with
            | Some p => callback (Some p) ;;; ret (tim, i + 1)
            | None => ret (now, i)
            end ;;
      lift (is_timeout (tim - fst ni) timeout) ;;;
      if match max_loops with
         | Some m => (0 <? m) && (m <=? snd ni)
         | None => false
         end
      then ret (Some true)
      else time_sleep (1 # 10) ;;;
           Vedirect_read_data_callback_loop fuel' (fst ni) timeout max_loops (snd ni)
  end.

(** [Vedirect.read_data_callback] *)
Definition Vedirect_read_data_callback (fuel : nat) (timeout : Q)
    (max_loops : option Z) : M (option bool) :=
  now <- time_time ;;
  ready <- gets (is_ready Vedirect) ;;
  if ready then Vedirect_read_data_callback_loop fuel now timeout max_loops 0
  else raise VedirectException.

(** [VedirectController.read_data_to_test] *)
Definition read_data_to_test (fuel : nat) : M (option (gmap string string)) :=
  ready <- gets (is_ready VedirectController) ;;
  if ready then
    try_except
      (data <- read_data_single VedirectController fuel 1 ;;
       match data with
       | Some d => ret (Some d)   (* res.update(data), or res left empty *)
       | None => ret (Some ∅)
       end)
      (fun _ => true)
      (fun _ => ret (Some ∅))
  else ret None.

(** [self._com.ser.timeout = self._com._timeout] *)
Definition restore_timeout : M unit :=
  fun w =>
    match _com w with
    | None => (w, Raise AttributeError)
    | Some c =>
        match ser c with
        | None => (w, Raise AttributeError)
        | Some s =>
            (set_com (Some (mkCom (_serial_port c) (_timeout c)
                              (Some (mkSerial (_timeout c) (is_open s))))) w,
             Ret tt)
        end
    end.

(** [self._com.ser.close()] *)
Definition ser_close : M unit :=
  fun w =>
    match _com w with
    | None => (w, Raise AttributeError)
    | Some c =>
        match ser c with
        | None => (w, Raise AttributeError)
        | Some s =>
            (set_com (Some (mkCom (_serial_port c) (_timeout c)
                              (Some (mkSerial (timeout s) false)))) w,
             Ret tt)
        end
    end.

(** [self._com.connect(serial_port=port, timeout=0)] *)
Definition connect (port : string) (t : option Q) : M bool :=
  fun w =>
    match _com w with
    | None => (w, Raise AttributeError)
    | Some c =>
        let '(e, c', ok) := com_connect (outside w) c port t in
        (set_outside e (set_com (Some c') w), Ret ok)
    end.

(** [self._ser_test.run_serial_tests(data)] *)
Definition do_run_serial_tests (data : option (gmap string string)) : M bool :=
  fun w =>
    match _ser_test w with
    | None => (w, Raise AttributeError)
    | Some h => (w, Ret (run_serial_tests h data))
    end.

(** The [for port in ports:] loop of [test_serial_ports], followed by its
    [return False]. *)
Fixpoint test_serial_ports_loop (fuel : nat) (ports : list string) : M bool :=
  match ports with
  | [] => ret false
  | port :: rest =>
      if is_serial_port port then
        ok <- connect port (Some 0%Q) ;;
        if ok then
          time_sleep (1 # 2) ;;;
          data <- read_data_to_test fuel ;;
          pass <- do_run_serial_tests data ;;
          if pass then restore_timeout ;;; ret true
          else ser_close ;;; test_serial_ports_loop fuel rest
        else test_serial_ports_loop fuel rest
      else test_serial_ports_loop fuel rest
  end.

(** [VedirectController.test_serial_ports]. With an empty list the method
    falls off its end and returns [None], which its caller tests for
    truth: [false] here. *)
Definition test_serial_ports (fuel : nat) (ports : list string) : M bool :=
  ready <- gets is_ready_to_search_ports ;;
  if ready then
    match ports with
    | [] => ret false
    | _ => test_serial_ports_loop fuel ports
    end
  else raise VedirectException.

(** [self._com.get_serial_ports_list()] *)
Definition get_serial_ports_list : M (list string) :=
  fun w =>
    match _com w with
    | None => (w, Raise AttributeError)
    | Some c =>
        let (e, ports) := com_get_serial_ports_list (outside w) c in
        (set_outside e w, Ret ports)
    end.

(** [VedirectController.search_serial_port] *)
Definition search_serial_port (fuel : nat) : M bool :=
  ready <- gets is_ready_to_search_ports ;;
  if ready then
    ports <- get_serial_ports_list ;;
    found <- test_serial_ports fuel ports ;;
    if found then modify (set_this init_data_read) ;;; ret true
    else ret false
  else ret false.

(** The [while bc:] loop of [wait_or_search_serial_connection]; [sweeps]
    bounds the number of iterations and [fuel] each probe. *)
Fixpoint wait_or_search_loop (sweeps fuel : nat) (now timeout : Q) : M bool :=
  match sweeps with
  | O => out_of_fuel
  | S sweeps' =>
      tim <- time_time ;;
      found <- search_serial_port fuel ;;
      if found then ret true
      else if negb (Qle_bool (tim - now) timeout) then raise TimeoutException
      else time_sleep (5 # 2) ;;; wait_or_search_loop sweeps' fuel now timeout
  end.

(** [VedirectController.wait_or_search_serial_connection]; its [exception]
    argument only appears in the messages of what it raises. *)
Definition wait_or_search_serial_connection (fuel : nat) (timeout : Q) : M bool :=
  ready <- gets is_ready_to_search_ports ;;
  if ready then
    now <- time_time ;;
    wait_or_search_loop fuel fuel now timeout
  else raise VedirectException.

(** The exception classes caught in [VedirectController.read_data_callback]:
    [InputReadException], [serial.SerialException] and its subclass
    [serial.SerialTimeoutException]. *)
Definition caught_by_callback_loop (e : exn) : bool :=
  match e with
  | InputReadException | SerialException => true
  | _ => false
  end.

(** The [while bc:] loop of [VedirectController.read_data_callback]. *)
Fixpoint VedirectController_read_data_callback_loop (fuel : nat)
    (now timeout connection_timeout : Q) (max_loops : option Z) (i : Z)
  : M (option bool) :=
  match fuel with
  | O => out_of_fuel
  | S fuel' =>
      tim <- time_time ;;
      r <- try_except
             (packet <- get_serial_packet ;; ret (now, tim, packet))
             caught_by_callback_loop
             (fun ex =>
                ok <- wait_or_search_serial_connection fuel' connection_timeout ;;
                if ok then
                  t <- time_time ;;
                  packet <- get_serial_packet ;;
                  ret (t, t, packet)
                else ret (now, tim, None)) ;;
      let '(now, tim, packet) := r in
      ni <- match packet with
            | Some p => callback (Some p) ;;; ret (tim, i + 1)
            | None => ret (now, i)
            end ;;
      lift (is_timeout (tim - fst ni) timeout) ;;;
      if match max_loops with
         | Some m => m <=? snd ni
         | None => false
         end
      then ret (Some true)
      else time_sleep (1 # 10) ;;;
           VedirectController_read_data_callback_loop fuel' (fst ni) timeout
             connection_timeout max_loops (snd ni)
  end.

(** [VedirectController.read_data_callback]: the method returns [True] from
    inside the loop; [callback_func(None)], after which it returns [None],
    is reached through the [else] branch only. *)
Definition VedirectController_read_data_callback (fuel : nat)
    (timeout connection_timeout : Q) (max_loops : option Z) : M (option bool) :=
  now <- time_time ;;
  ready <- gets (is_ready VedirectController) ;;
  if ready then
    (* [bc] stays [True]: the loop is left by [return True] or by a raise *)
    VedirectController_read_data_callback_loop fuel now timeout
      connection_timeout max_loops 0
  else
    callback None ;;;
    ret None.

(** ** Predicates used in the statements *)

(** [ser.timeout] holds the value of the connection's [_timeout]. *)
Definition timeout_restored (w : world) : Prop :=
  exists c s, _com w = Some c /\ ser c = Some s /\ timeout s = _timeout c.

(** The connection's configured read timeout, [self._com._timeout]. *)
Definition configured_timeout (w : world) : option (option Q) :=
  match _com w with
  | Some c => Some (_timeout c)
  | None => None
  end.

(** The computation [m] leaves the observation [f] of the world as it
    was, however it ends. *)
Definition keeps {X A} (f : world -> X) (m : M A) : Prop :=
  forall w w' o, m w = (w', o) -> f w' = f w.

(** An observation that reading the clock, reading the port, feeding the
    decoder, assigning to an attribute of [ser] and [connect] leave as it
    was. *)
Class Frame {X} (f : world -> X) : Prop := {
  frame_ticks : forall n w, f (set_ticks n w) = f w;
  frame_rx_pos : forall n w, f (set_rx_pos n w) = f w;
  frame_this : forall d w, f (set_this d w) = f w;
  frame_outside : forall e w, f (set_outside e w) = f w;
  frame_ser : forall w c s, _com w = Some c ->
    f (set_com (Some (mkCom (_serial_port c) (_timeout c) (Some s))) w) = f w;
  frame_connect : forall port t, keeps f (connect port t)
}.

End Supervisor.

(** ** Example data *)

(** [\r\nPID\t0x203\r\nChecksum\t<C>] with the HEX message [:ABCDEF\n]
    inserted inside the value, <C> being the checksum of the text frame. *)
Definition hex_message : list byte := B ":ABCDEF" ++ LF.
Definition frame_pid_head : list byte := CR ++ LF ++ B "PID" ++ TAB ++ B "0x2".
Definition frame_pid_tail : list byte :=
  B "03" ++ CR ++ LF ++ B "Checksum" ++ TAB
  ++ [checksum_byte (CR ++ LF ++ B "PID" ++ TAB ++ B "0x203" ++ CR ++ LF ++ B "Checksum" ++ TAB)].
Definition frame_pid_with_hex : list byte :=
  frame_pid_head ++ hex_message ++ frame_pid_tail.

Definition is_ret_none {A} (o : outcome (option A)) : bool :=
  match o with Ret None => true | _ => false end.

(** A collaborator set for the examples: two candidate ports, of which only
    [/dev/ttyUSB1] opens; a connection is ready when its port is open; the
    single identity test asks for [PID = 0x203]. *)
Definition demo_collaborators : Collaborators := {|
  env := unit;
  helper := string * string;
  com_is_ready := fun c => match ser c with Some s => is_open s | None => false end;
  com_connect := fun e c port t =>
    if String.eqb port "/dev/ttyUSB1"
    then (e, mkCom port (_timeout c) (Some (mkSerial t true)), true)
    else (e, mkCom (_serial_port c) (_timeout c) None, false);
  com_get_serial_ports_list := fun e _ => (e, ["/dev/ttyUSB0"; "/dev/ttyUSB1"]);
  is_serial_port := fun _ => true;
  has_serial_tests := fun _ => true;
  run_serial_tests := fun h data =>
    match data with
    | Some d => bool_decide (d !! (fst h) = Some (snd h))
    | None => false
    end
|}.

(** The port delivers the bytes of [bs], one per read, then nothing. *)
Definition rx_of (bs : list byte) : nat -> rx_event :=
  fun n => match nth_error bs n with Some b => RxBytes [b] | None => RxBytes [] end.

(** A controller connected to [/dev/ttyUSB1] (read timeout 5 s, open) on
    which the device sends [frame_pid]; the clock stands still. *)
Definition demo_world : @world demo_collaborators :=
  @mkWorld demo_collaborators init_data_read
    (Some (mkCom "/dev/ttyUSB1" (Some 5%Q) (Some (mkSerial (Some 5%Q) true))))
    (Some ("PID", "0x203"))
    (rx_of frame_pid) 0 (fun _ => 0%Q) 0 [] tt.

(** The same controller after its port was lost: the connection object has
    no open port and the decoder holds half a frame. The device goes on
    sending [frame_pid]; the first one completes the stale half frame and
    is dropped, the second one is returned. *)
Definition demo_world_lost : @world demo_collaborators :=
  @mkWorld demo_collaborators (mkDecoder "PID" "0x2" 731 IN_VALUE ∅)
    (Some (mkCom "/dev/ttyUSB0" (Some 5%Q) None))
    (Some ("PID", "0x203"))
    (rx_of (frame_pid ++ frame_pid)) 0 (fun _ => 0%Q) 0 [] tt.

(** The port delivers a NUL and then [\r]. *)
Definition demo_world_nul : @world demo_collaborators :=
  @mkWorld demo_collaborators init_data_read
    (Some (mkCom "/dev/ttyUSB1" (Some 5%Q) (Some (mkSerial (Some 5%Q) true))))
    (Some ("PID", "0x203"))
    (rx_of ([x00] ++ CR)) 0 (fun _ => 0%Q) 0 [] tt.

(** The connected controller on an idle line: every read times out. *)
Definition demo_world_idle : @world demo_collaborators :=
  @mkWorld demo_collaborators init_data_read
    (Some (mkCom "/dev/ttyUSB1" (Some 5%Q) (Some (mkSerial (Some 5%Q) true))))
    (Some ("PID", "0x203"))
    (rx_of []) 0 (fun _ => 0%Q) 0 [] tt.

(** The connected controller with its decoder waiting for the checksum
    byte of a frame whose body sums to 0 mod 256, on the port of
    [demo_world_nul]. *)
Definition demo_world_nul_checksum : @world demo_collaborators :=
  set_this (mkDecoder "Checksum" "" 256 IN_CHECKSUM {[ "PID" := "0x203" ]}) demo_world_nul.

(** A collaborator set that only takes names under [/dev/tty] for port
    names, and a controller of it whose port is lost. *)
Definition strict_collaborators : Collaborators := {|
  env := unit;
  helper := string * string;
  com_is_ready := @com_is_ready demo_collaborators;
  com_connect := @com_connect demo_collaborators;
  com_get_serial_ports_list := @com_get_serial_ports_list demo_collaborators;
  is_serial_port := fun port => String.prefix "/dev/tty" port;
  has_serial_tests := @has_serial_tests demo_collaborators;
  run_serial_tests := @run_serial_tests demo_collaborators
|}.

Definition strict_world_lost : @world strict_collaborators :=
  @mkWorld strict_collaborators init_data_read
    (Some (mkCom "/dev/ttyUSB0" (Some 5%Q) None))
    (Some ("PID", "0x203"))
    (rx_of []) 0 (fun _ => 0%Q) 0 [] tt.

(** ** Text frames on the wire *)

(** Bytes that [input_read] appends to a buffer: ASCII, and not the
    separator [sep] of the state (TAB in a key, CR in a value). *)
Definition text_ok (sep : Z) (bs : list byte) : bool :=
  forallb (fun b => (nbyte_of b <? 128) && negb (nbyte_of b =? sep)) bs.

(** A key and a value, as bytes, that make a line of a frame: the key
    holds no TAB and is not [Checksum], the value holds no CR. *)
Definition field_ok (kv : list byte * list byte) : bool :=
  text_ok delimiter (fst kv) && text_ok header1 (snd kv)
  && negb (String.eqb (string_of_list_byte (fst kv)) "Checksum").

(** A line as it follows the [\r] that ended the previous one:
    [\n key \t value \r]. *)
Definition field_line (kv : list byte * list byte) : list byte :=
  LF ++ fst kv ++ TAB ++ snd kv ++ CR.

(** A frame up to, and without, its checksum byte:
    [\r \n k1 \t v1 \r \n k2 \t v2 \r ... \n Checksum \t]. *)
Definition frame_body (fields : list (list byte * list byte)) : list byte :=
  CR ++ concat (map field_line fields) ++ LF ++ B "Checksum" ++ TAB.

(** [self.dict[self.key] = self.value] for each line in turn. *)
Definition commit_fields (fields : list (list byte * list byte))
    (m : gmap string string) : gmap string string :=
  fold_left
    (fun m kv => <[string_of_list_byte (fst kv) := string_of_list_byte (snd kv)]> m)
    fields m.

(** Feeding [bs] byte by byte from [d] ends in [d'], and no call returns a
    block or raises. *)
Definition runs_quiet (d : decoder) (bs : list byte) (d' : decoder) : Prop :=
  feed d (singles bs) = d'
  /\ feed_out d (singles bs) = repeat (Ret None) (length bs).

(** What the buffers hold in each state. *)
Definition buffers_inv (d : decoder) : Prop :=
  state d <> HEX
  /\ (state d = WAIT_HEADER -> key d = "" /\ value d = "")
  /\ (state d = IN_KEY -> value d = "")
  /\ (state d = IN_CHECKSUM -> key d = "Checksum" /\ value d = "").

(** ** What the port and the clock do during a read *)

Definition no_nul (bs : list byte) : bool :=
  forallb (fun b => negb (Byte.eqb b x00)) bs.

Section PortScripts.
Context {C : Collaborators}.

(** From its current position the port delivers the bytes of [bs], one per
    call of [ser.read(1)]. *)
Definition delivers (w : world) (bs : list byte) : Prop :=
  forall i b, nth_error bs i = Some b -> rx w (rx_pos w + i) = RxBytes [b].

(** No reading of the clock shows [limit] or more elapsed since [now]. *)
Definition in_time (w : world) (now limit : Q) : Prop :=
  forall n, Qle_bool limit (clock w n - now) = false.

End PortScripts.

(** ** Setting up the connection *)

(** What [serconnect.py] contributes to the set-up methods. [conf] stands
    for the arguments [serial_port], [baud], [timeout] and [source_name],
    which the methods below only pass on. *)
Class SetupCollaborators {C : Collaborators} : Type := {
  conf : Type;
  (* SerialConnection.is_serial_conf(serial_port=, baud=, timeout=), static *)
  is_serial_conf : conf -> bool;
  (* SerialConnection(serial_port=, baud=, timeout=, source_name=) *)
  new_connection : conf -> SerialConnection;
  (* SerialConnection.is_settings(self) *)
  com_is_settings : SerialConnection -> bool;
  (* SerialConnection.connect(self), without arguments *)
  com_connect_default : env -> SerialConnection -> env * SerialConnection * bool
}.

Section Setup.
Context {C : Collaborators} {S : SetupCollaborators}.

Notation "x <- m ;; k" := (bind m (fun x => k))
  (at level 100, m at next level, right associativity).
Notation "m ;;; k" := (bind m (fun _ => k))
  (at level 100, right associativity).

(** [Vedirect.connect_to_serial]: in
    [(not is_ready() and connect()) or is_ready()] a ready connection is
    not connected again, and after a failed [connect()] readiness is asked
    once more. *)
Definition connect_to_serial : M bool :=
  fun w =>
    match _com w with
    | None => (w, Ret false)
    | Some c =>
        if com_is_ready c then (w, Ret true)
        else
          let '(e, c', ok) := com_connect_default (outside w) c in
          let w' := set_outside e (set_com (Some c') w) in
          if ok then (w', Ret true) else (w', Ret (com_is_ready c'))
    end.

(** [Vedirect.init_serial_connection_from_object]; [None] stands for an
    argument that is not a [SerialConnection]. *)
Definition init_serial_connection_from_object
    (serial_connection : option SerialConnection) : M bool :=
  match serial_connection with
  | Some sc =>
      if com_is_settings sc then
        modify (set_com (Some sc)) ;;;
        ok <- connect_to_serial ;;
        if negb ok then raise VedirectException else ret true
      else raise SettingInvalidException
  | None => raise SettingInvalidException
  end.

(** [Vedirect.init_serial_connection] *)
Definition init_serial_connection (cf : conf) : M bool :=
  if is_serial_conf cf then
    modify (set_com (Some (new_connection cf))) ;;;
    ok <- connect_to_serial ;;
    if negb ok then raise VedirectException else ret true
  else raise SettingInvalidException.

(** [Vedirect.init_settings] *)
Definition Vedirect_init_settings (cf : conf) : M bool :=
  init_serial_connection cf.

(** [except VedirectException] in [VedirectController.init_settings]:
    [test_init_settings] expects a [SettingInvalidException] to pass
    through the method, so that class is not caught there. *)
Definition caught_by_init_settings (e : exn) : bool :=
  match e with
  | VedirectException => true
  | _ => false
  end.

(** [VedirectController.init_settings] *)
Definition VedirectController_init_settings (fuel : nat) (cf : conf)
    (wait_timeout : Q) : M bool :=
  try_except
    (init_serial_connection cf)
    caught_by_init_settings
    (fun ex =>
       ok <- wait_or_search_serial_connection fuel wait_timeout ;;
       if ok then ret true else ret false).

End Setup.

(** A set-up collaborator set for the examples: the configuration is the
    port name; a connection opens only on [/dev/ttyUSB1]. *)
Definition demo_setup : @SetupCollaborators demo_collaborators := {|
  conf := string;
  is_serial_conf := fun port => String.prefix "/dev/tty" port;
  new_connection := fun port => mkCom port (Some 5%Q) None;
  com_is_settings := fun c => String.prefix "/dev/tty" (_serial_port c);
  com_connect_default := fun e c =>
    if String.eqb (_serial_port c) "/dev/ttyUSB1"
    then (e, mkCom (_serial_port c) (_timeout c) (Some (mkSerial (_timeout c) true)), true)
    else (e, mkCom (_serial_port c) (_timeout c) None, false)
|}.

(** ** The decoder: one call of [input_read] *)

Lemma py_eq_int_bytes bs n : py_eq_int (PyBytes bs) n = false.
Proof. reflexivity. Qed.

Lemma nbyte_of_range b : 0 <= nbyte_of b < 256.
Proof.
  unfold nbyte_of. pose proof (Byte.to_N_bounded b) as Hb.
  split; [apply N2Z.is_nonneg|]. lia.
Qed.

Lemma decode_single_ascii b :
  nbyte_of b < 128 ->
  py_decode_ascii (PyBytes [b]) = Some (String (ascii_of_byte b) EmptyString).
Proof.
  intros Hb. unfold py_decode_ascii. simpl forallb.
  destruct (Z.ltb_spec (nbyte_of b) 128); [reflexivity | lia].
Qed.

Lemma decode_single_high b :
  128 <= nbyte_of b -> py_decode_ascii (PyBytes [b]) = None.
Proof.
  intros Hb. unfold py_decode_ascii. simpl forallb.
  destruct (Z.ltb_spec (nbyte_of b) 128); [lia | reflexivity].
Qed.

Example frame_pid_decodes :
  last (feed_out init_data_read (singles frame_pid))
  = Some (Ret (Some {[ "PID" := "0x203" ]})).
Proof. vm_compute. reflexivity. Qed.

Example frame_pid_split : frame_pid = frame_pid_head ++ frame_pid_tail.
Proof. reflexivity. Qed.

(** C1 (what the code does where the claim expects the HEX escape). The
    test [byte == self.hexmarker] compares a [bytes] object with an [int]
    and is never true, so a COLON byte is handled by the branch of the
    current state: outside IN_CHECKSUM and HEX the state is kept and 58 is
    added to [bytes_sum]; the decoder does not go to HEX. *)
Theorem input_read_colon_no_hex_escape (d : decoder) :
  let d' := fst (input_read d (PyBytes [x3a])) in
  match state d with
  | HEX => state d' = HEX
  | IN_CHECKSUM => state d' = WAIT_HEADER
  | s => state d' = s /\ bytes_sum d' = bytes_sum d + 58
  end.
Proof.
  destruct d as [k v s st m]; destruct st; cbn; auto.
  destruct ((s + 58) mod 256 =? 0); reflexivity.
Qed.

(** C1 at the failing input: a fresh decoder fed [b':'] stays in
    WAIT_HEADER with [bytes_sum = 58]. *)
Example input_read_colon_fresh :
  input_read init_data_read (PyBytes [x3a])
  = (mkDecoder "" "" 58 WAIT_HEADER ∅, Ret None).
Proof. reflexivity. Qed.

(** C2, the claim at a concrete input: after the two valid frames
    [frame_pid] and [frame_v] the mapping still holds the key of the first
    frame when the second block is returned, and it is not empty after the
    first checksum byte. *)
Lemma pending_not_reset_counterexample :
  dict (feed init_data_read (singles frame_pid)) = {[ "PID" := "0x203" ]}
  /\ state (feed init_data_read (singles frame_pid)) = WAIT_HEADER
  /\ last (feed_out init_data_read (singles (frame_pid ++ frame_v)))
     = Some (Ret (Some (<[ "V" := "12800" ]> {[ "PID" := "0x203" ]})))
  /\ ~ (forall d b d' o, state d = IN_CHECKSUM ->
          input_read d (PyBytes [b]) = (d', o) ->
          bytes_sum d' = 0 /\ dict d' = ∅).
Proof.
  split; [vm_compute; reflexivity|].
  split; [reflexivity|].
  split; [vm_compute; reflexivity|].
  intros H.
  destruct (H (mkDecoder "" "" 0 IN_CHECKSUM {[ "PID" := "0x203" ]}) x00 _ _
              eq_refl eq_refl) as [_ Hd].
  cbn in Hd. apply (f_equal (fun m : gmap string string => m !! "PID")) in Hd.
  vm_compute in Hd. discriminate Hd.
Qed.

(** C2 as amended: the byte consumed in IN_CHECKSUM brings the decoder to
    WAIT_HEADER with [bytes_sum = 0] and both buffers empty, whether the
    block is returned or dropped; the mapping is kept as it is, and the
    returned block is that mapping. *)
Theorem input_read_in_checksum (d : decoder) (byte : pyobj) (n : Z) :
  state d = IN_CHECKSUM ->
  py_ord byte = Some n ->
  input_read d byte
  = (mkDecoder "" "" 0 WAIT_HEADER (dict d),
     Ret (if (bytes_sum d + n) mod 256 =? 0 then Some (dict d) else None)).
Proof.
  intros Hst Hord. unfold input_read. rewrite Hord, Hst. cbn.
  rewrite andb_false_r. rewrite Hst. cbn.
  destruct ((bytes_sum d + n) mod 256 =? 0); reflexivity.
Qed.

Lemma input_read_in_checksum_witness :
  input_read (mkDecoder "Checksum" "" 200 IN_CHECKSUM {[ "PID" := "0x203" ]})
             (PyBytes [x38])
  = (mkDecoder "" "" 0 WAIT_HEADER {[ "PID" := "0x203" ]},
     Ret (Some {[ "PID" := "0x203" ]})).
Proof.
  exact (input_read_in_checksum
           (mkDecoder "Checksum" "" 200 IN_CHECKSUM {[ "PID" := "0x203" ]})
           (PyBytes [x38]) 56 eq_refl eq_refl).
Defined.

(** ** The decoder over a byte sequence *)

Lemma feed_snoc d l x : feed d (l ++ [x]) = fst (input_read (feed d l) x).
Proof. unfold feed. rewrite fold_left_app. reflexivity. Qed.

Lemma singles_snoc bs b : singles (bs ++ [b]) = singles bs ++ [PyBytes [b]].
Proof. unfold singles. rewrite map_app. reflexivity. Qed.

Lemma sum_bytes_snoc bs b : sum_bytes (bs ++ [b]) = sum_bytes bs + nbyte_of b.
Proof.
  induction bs as [|a bs IH]; cbn; [lia|].
  unfold sum_bytes in IH. rewrite IH. lia.
Qed.

(** One call on a [bytes] object of length one, from a state other than
    HEX: out of IN_CHECKSUM the sum is reset and a block is returned exactly
    when the sum with this byte is 0 mod 256; elsewhere the byte is added
    and nothing is returned. *)
Lemma input_read_byte_step d b :
  state d <> HEX ->
  let r := input_read d (PyBytes [b]) in
  state (fst r) <> HEX /\
  (state d = IN_CHECKSUM ->
     bytes_sum (fst r) = 0 /\
     (forall blk, snd r = Ret (Some blk) -> (bytes_sum d + nbyte_of b) mod 256 = 0)) /\
  (state d <> IN_CHECKSUM ->
     bytes_sum (fst r) = bytes_sum d + nbyte_of b /\
     (forall blk, snd r <> Ret (Some blk))).
Proof.
  intros Hhex. destruct d as [k v s st m]. cbn in Hhex.
  unfold input_read. cbn [py_ord py_eq_int andb state].
  destruct st; try congruence; cbn -[Z.modulo py_decode_ascii String.eqb].
  - (* WAIT_HEADER *)
    destruct (nbyte_of b =? header1); [|destruct (nbyte_of b =? header2)];
      cbn; repeat split; try congruence.
  - (* IN_KEY *)
    destruct (nbyte_of b =? delimiter).
    + destruct (String.eqb k "Checksum"); cbn; repeat split; congruence.
    + destruct (py_decode_ascii (PyBytes [b])); cbn; repeat split; congruence.
  - (* IN_VALUE *)
    destruct (nbyte_of b =? header1).
    + cbn; repeat split; congruence.
    + destruct (py_decode_ascii (PyBytes [b])); cbn; repeat split; congruence.
  - (* IN_CHECKSUM *)
    destruct (Z.eqb_spec ((s + nbyte_of b) mod 256) 0) as [Hz|Hz];
      cbn; repeat split; try congruence.
Qed.

Lemma feed_bytes_not_HEX bs : state (feed init_data_read (singles bs)) <> HEX.
Proof.
  induction bs as [|b bs IH] using rev_ind; [discriminate|].
  rewrite singles_snoc, feed_snoc.
  apply (input_read_byte_step _ b IH).
Qed.

Lemma snoc_split {A} (f f1 f2 : list A) (b c : A) :
  f ++ [b] = f1 ++ c :: f2 ->
  (f2 = [] /\ f1 = f /\ c = b) \/ (exists f2', f2 = f2' ++ [b] /\ f = f1 ++ c :: f2').
Proof.
  intros H. destruct f2 as [|x f2 _] using rev_ind.
  - left. apply app_inj_tail in H. destruct H; auto.
  - right. exists f2.
    change (f1 ++ c :: f2 ++ [x]) with (f1 ++ (c :: f2) ++ [x]) in H.
    rewrite app_assoc in H. apply app_inj_tail in H. destruct H as [H1 H2].
    subst. split; reflexivity.
Qed.

(** The accumulator is the sum of the bytes fed since the last frame
    boundary. *)
Lemma bytes_sum_is_frame_sum bs :
  exists pre f,
    bs = pre ++ f /\ frame_boundary pre /\ no_checksum_inside pre f
    /\ bytes_sum (feed init_data_read (singles bs)) = sum_bytes f.
Proof.
  induction bs as [|b bs IH] using rev_ind.
  - exists [], []. repeat split; [left; reflexivity|].
    intros f1 c f2 H. destruct f1; discriminate H.
  - destruct IH as (pre & f & Hbs & Hpre & Hin & Hsum).
    pose proof (input_read_byte_step _ b (feed_bytes_not_HEX bs)) as (_ & Hck & Hnck).
    rewrite singles_snoc, feed_snoc.
    destruct (dstate_eqb (state (feed init_data_read (singles bs))) IN_CHECKSUM) eqn:E.
    + assert (Hst : state (feed init_data_read (singles bs)) = IN_CHECKSUM)
        by (destruct (state (feed init_data_read (singles bs))); try discriminate E; reflexivity).
      exists (bs ++ [b]), []. rewrite app_nil_r.
      repeat split.
      * right. exists bs, b. split; [reflexivity | exact Hst].
      * intros f1 c f2 H. destruct f1; discriminate H.
      * apply Hck, Hst.
    + assert (Hst : state (feed init_data_read (singles bs)) <> IN_CHECKSUM)
        by (intros Hst; rewrite Hst in E; discriminate E).
      exists pre, (f ++ [b]). repeat split.
      * rewrite Hbs, app_assoc. reflexivity.
      * exact Hpre.
      * intros f1 c f2 H. apply snoc_split in H.
        destruct H as [(_ & -> & _) | (f2' & _ & Hf)].
        -- rewrite <- Hbs. exact Hst.
        -- exact (Hin _ _ _ Hf).
      * rewrite sum_bytes_snoc, <- Hsum. apply Hnck, Hst.
Qed.

(** C3. Bytes are fed one call at a time to a fresh decoder. When the call
    on byte [b] returns a block, [b] is consumed in IN_CHECKSUM and the
    bytes fed since the last frame boundary, [b] included, sum to 0 mod
    256. *)
Theorem block_only_on_zero_frame_sum (bs : list byte) (b : byte)
    (d' : decoder) (blk : gmap string string) :
  input_read (feed init_data_read (singles bs)) (PyBytes [b]) = (d', Ret (Some blk)) ->
  exists pre f,
    bs = pre ++ f /\ frame_boundary pre /\ no_checksum_inside pre f
    /\ state (feed init_data_read (singles bs)) = IN_CHECKSUM
    /\ sum_bytes (f ++ [b]) mod 256 = 0.
Proof.
  intros Hr.
  destruct (bytes_sum_is_frame_sum bs) as (pre & f & Hbs & Hpre & Hin & Hsum).
  pose proof (input_read_byte_step _ b (feed_bytes_not_HEX bs)) as (_ & Hck & Hnck).
  rewrite Hr in Hck, Hnck. cbn [fst snd] in Hck, Hnck.
  assert (Hst : state (feed init_data_read (singles bs)) = IN_CHECKSUM).
  { destruct (state (feed init_data_read (singles bs))) eqn:E; try reflexivity;
      exfalso; exact (proj2 (Hnck ltac:(discriminate)) blk eq_refl). }
  exists pre, f. repeat split; try assumption.
  rewrite sum_bytes_snoc, <- Hsum. exact (proj2 (Hck Hst) blk eq_refl).
Qed.

(** The frame [\r\nPID\t0x203\r\nChecksum\t<C>] fed to a fresh decoder: the
    call on <C> returns the block, and the whole frame sums to 0 mod 256. *)
Lemma block_only_on_zero_frame_sum_witness :
  exists pre f,
    removelast frame_pid = pre ++ f /\ frame_boundary pre /\ no_checksum_inside pre f
    /\ state (feed init_data_read (singles (removelast frame_pid))) = IN_CHECKSUM
    /\ sum_bytes (f ++ [checksum_byte (removelast frame_pid)]) mod 256 = 0.
Proof.
  apply (block_only_on_zero_frame_sum (removelast frame_pid)
           (checksum_byte (removelast frame_pid))
           (mkDecoder "" "" 0 WAIT_HEADER {[ "PID" := "0x203" ]})
           {[ "PID" := "0x203" ]}).
  vm_compute. reflexivity.
Defined.

(** ** HEX messages *)

(** C4, the claim at a concrete input: the HEX message [:ABCDEF\n] inside
    the value of the valid frame [frame_pid]. Without the message the frame
    returns its block; with it no call returns a block, the bytes of the
    message end up in the value, and they are counted in [bytes_sum]. *)
Lemma embedded_hex_counterexample :
  last (feed_out init_data_read (singles frame_pid))
    = Some (Ret (Some {[ "PID" := "0x203" ]}))
  /\ forallb is_ret_none (feed_out init_data_read (singles frame_pid_with_hex)) = true
  /\ value (feed init_data_read (singles (frame_pid_head ++ hex_message)))
     = string_of_list_byte (B "0x2" ++ hex_message)
  /\ bytes_sum (feed init_data_read (singles (frame_pid_head ++ hex_message)))
     = bytes_sum (feed init_data_read (singles frame_pid_head)) + sum_bytes hex_message
  /\ sum_bytes hex_message mod 256 = 217.
Proof. repeat split; vm_compute; reflexivity. Qed.

(** C4 as amended: a byte consumed while the decoder is in HEX leaves both
    buffers and the mapping as they are and returns nothing, so it reaches
    no block; it sets [bytes_sum] to 0 (the sum of a surrounding text frame
    is dropped, not kept), and the decoder leaves HEX for WAIT_HEADER on
    LF. *)
Theorem input_read_in_hex (d : decoder) (byte : pyobj) (n : Z) :
  state d = HEX ->
  py_ord byte = Some n ->
  input_read d byte
  = (mkDecoder (key d) (value d) 0 (if n =? header2 then WAIT_HEADER else HEX) (dict d),
     Ret None).
Proof.
  intros Hst Hord. unfold input_read. rewrite Hord.
  assert (E : state (if py_eq_int byte hexmarker && negb (dstate_eqb (state d) IN_CHECKSUM)
                     then set_state HEX d else d) = HEX)
    by (destruct (py_eq_int byte hexmarker && _); [reflexivity | exact Hst]).
  rewrite E.
  destruct (py_eq_int byte hexmarker && _), (n =? header2); cbn;
    rewrite <- ?Hst; destruct d; reflexivity.
Qed.

Lemma input_read_in_hex_witness :
  input_read (mkDecoder "PID" "0x2" 731 HEX ∅) (PyBytes [x0a])
  = (mkDecoder "PID" "0x2" 0 WAIT_HEADER ∅, Ret None).
Proof.
  exact (input_read_in_hex (mkDecoder "PID" "0x2" 731 HEX ∅) (PyBytes [x0a]) 10
           eq_refl eq_refl).
Defined.

(** ** Bytes above 0x7f *)

(** C7, the claim at a concrete input: the byte 0x80 consumed in IN_KEY and
    in IN_VALUE raises; it is not appended. *)
Lemma non_ascii_counterexample :
  input_read (mkDecoder "PI" "" 0 IN_KEY ∅) (PyBytes [x80])
    = (mkDecoder "PI" "" 128 IN_KEY ∅, Raise InputReadException)
  /\ input_read (mkDecoder "PID" "0x" 0 IN_VALUE ∅) (PyBytes [x80])
    = (mkDecoder "PID" "0x" 128 IN_VALUE ∅, Raise InputReadException).
Proof. split; reflexivity. Qed.

(** C7 as amended: in IN_KEY or IN_VALUE a byte of value 0x80 or more is
    added to [bytes_sum] and then fails to decode as ASCII: the call raises
    [InputReadException] and neither buffer changes. A byte below 0x80 that
    is not the separator of the state (TAB in IN_KEY, CR in IN_VALUE) is
    appended as it is to the buffer of the state. *)
Theorem input_read_text_byte (d : decoder) (b : byte) :
  state d = IN_KEY \/ state d = IN_VALUE ->
  (128 <= nbyte_of b ->
     input_read d (PyBytes [b])
     = (set_bytes_sum (bytes_sum d + nbyte_of b) d, Raise InputReadException))
  /\ (nbyte_of b < 128 ->
      (state d = IN_KEY -> nbyte_of b <> delimiter ->
         input_read d (PyBytes [b])
         = (set_key (key d ++ String (ascii_of_byte b) EmptyString)%string
              (set_bytes_sum (bytes_sum d + nbyte_of b) d), Ret None))
      /\ (state d = IN_VALUE -> nbyte_of b <> header1 ->
         input_read d (PyBytes [b])
         = (set_value (value d ++ String (ascii_of_byte b) EmptyString)%string
              (set_bytes_sum (bytes_sum d + nbyte_of b) d), Ret None))).
Proof.
  intros Hst. unfold input_read. cbn [py_ord py_eq_int andb].
  split.
  - intros Hhi. rewrite (decode_single_high b Hhi).
    destruct Hst as [Hst|Hst]; rewrite Hst; cbn [state set_bytes_sum].
    + destruct (Z.eqb_spec (nbyte_of b) delimiter) as [E|E];
        [unfold delimiter in E; lia | reflexivity].
    + destruct (Z.eqb_spec (nbyte_of b) header1) as [E|E];
        [unfold header1 in E; lia | reflexivity].
  - intros Hlo. rewrite (decode_single_ascii b Hlo). split; intros Hs Hsep; rewrite Hs.
    + destruct (Z.eqb_spec (nbyte_of b) delimiter) as [E|E]; [contradiction | reflexivity].
    + destruct (Z.eqb_spec (nbyte_of b) header1) as [E|E]; [contradiction | reflexivity].
Qed.

Lemma input_read_text_byte_witness :
  input_read (mkDecoder "PI" "" 0 IN_KEY ∅) (PyBytes [xe9])
  = (mkDecoder "PI" "" 233 IN_KEY ∅, Raise InputReadException).
Proof.
  refine (proj1 (input_read_text_byte (mkDecoder "PI" "" 0 IN_KEY ∅) xe9
                   (or_introl eq_refl)) _).
  vm_compute. discriminate.
Defined.

(** ** Timeouts *)

(** C5. [is_timeout] raises [TimeoutException] exactly when
    [elapsed >= timeout], equality included, and returns [True] exactly
    when [elapsed < timeout]. *)
Theorem is_timeout_spec (elapsed timeout : Q) :
  (is_timeout elapsed timeout = Raise TimeoutException <-> (timeout <= elapsed)%Q)
  /\ (is_timeout elapsed timeout = Ret true <-> (elapsed < timeout)%Q).
Proof.
  unfold is_timeout.
  destruct (Qle_bool timeout elapsed) eqn:E.
  - apply Qle_bool_iff in E. split; split; intros H; try reflexivity; try exact E.
    + discriminate H.
    + exfalso. exact (Qlt_not_le _ _ H E).
  - assert (Hn : ~ (timeout <= elapsed)%Q)
      by (intros H; apply Qle_bool_iff in H; congruence).
    split; split; intros H; try reflexivity.
    + discriminate H.
    + contradiction.
    + apply Qnot_le_lt, Hn.
Qed.

Example is_timeout_59_60 : is_timeout 59 60 = Ret true.
Proof. reflexivity. Qed.
Example is_timeout_60_60 : is_timeout 60 60 = Raise TimeoutException.
Proof. reflexivity. Qed.

(** ** The serial side *)

Section SupervisorFacts.
Context {C : Collaborators}.

(** C9. When [ser.read(1)] returns [b'\x00'], [get_serial_packet] reads
    exactly once more and hands the result of that second read, whatever
    it is, to [input_read]; the NUL itself never reaches the decoder. (A
    second read that raises leaves the decoder untouched.) *)
Theorem get_serial_packet_skips_nul (w : world) (c : SerialConnection) (s : Serial) :
  _com w = Some c -> ser c = Some s ->
  rx w (rx_pos w) = RxBytes [x00] ->
  get_serial_packet w
  = match rx w (S (rx_pos w)) with
    | RxBytes bs =>
        (set_this (fst (input_read (this w) (PyBytes bs)))
           (set_rx_pos (S (S (rx_pos w))) w),
         snd (input_read (this w) (PyBytes bs)))
    | RxError => (set_rx_pos (S (S (rx_pos w))) w, Raise SerialException)
    end.
Proof.
  intros Hcom Hser Hrx.
  unfold get_serial_packet, bind, ser_read.
  rewrite Hcom, Hser, Hrx.
  change (is_nul [x00]) with true. cbv beta iota.
  cbn [_com rx rx_pos set_rx_pos].
  rewrite Hcom, Hser.
  destruct (rx w (S (rx_pos w))) as [bs|]; [|reflexivity].
  unfold do_input_read. cbn [this set_rx_pos].
  destruct (input_read (this w) (PyBytes bs)) as [d o]. reflexivity.
Qed.

(** C10. Called while the serial connection is not ready, on an object of
    either class, [read_data_single] returns [None]: nothing is raised,
    nothing is read from the port and the decoder is not touched (only the
    clock has been read once). *)
Theorem read_data_single_not_ready (k : klass) (fuel : nat) (limit : Q) (w : world) :
  is_serial_ready w = false ->
  read_data_single k fuel limit w = (set_ticks (S (ticks w)) w, Ret None).
Proof.
  intros Hr. unfold read_data_single, bind, time_time, gets.
  assert (E : is_ready k (set_ticks (S (ticks w)) w) = false).
  { destruct k; unfold is_ready, is_serial_ready, has_serial_test in *;
      cbn [_com _ser_test set_ticks]; rewrite Hr; reflexivity. }
  rewrite E. reflexivity.
Qed.

(** *** What a computation leaves alone *)

Section FrameFacts.
Context {X : Type} (f : world -> X) {Hf : Frame f}.

Lemma keeps_ret {A} (a : A) : keeps f (ret a).
Proof. intros w w' o H. injection H as <- _. reflexivity. Qed.

Lemma keeps_raise {A} (e : exn) : keeps f (raise (A:=A) e).
Proof. intros w w' o H. injection H as <- _. reflexivity. Qed.

Lemma keeps_out_of_fuel {A} : keeps f (out_of_fuel (A:=A)).
Proof. intros w w' o H. injection H as <- _. reflexivity. Qed.

Lemma keeps_lift {A} (r : outcome A) : keeps f (lift r).
Proof. intros w w' o H. injection H as <- _. reflexivity. Qed.

Lemma keeps_gets {A} (g : world -> A) : keeps f (gets g).
Proof. intros w w' o H. injection H as <- _. reflexivity. Qed.

Lemma keeps_bind {A B} (m : M A) (k : A -> M B) :
  keeps f m -> (forall a, keeps f (k a)) -> keeps f (bind m k).
Proof.
  intros Hm Hk w w' o H. unfold bind in H.
  destruct (m w) as [w1 [a|e|]] eqn:E.
  - rewrite (Hk a _ _ _ H). exact (Hm _ _ _ E).
  - injection H as <- _. exact (Hm _ _ _ E).
  - injection H as <- _. exact (Hm _ _ _ E).
Qed.

Lemma keeps_try_except {A} (m : M A) caught (h : exn -> M A) :
  keeps f m -> (forall e, keeps f (h e)) -> keeps f (try_except m caught h).
Proof.
  intros Hm Hh w w' o H. unfold try_except in H.
  destruct (m w) as [w1 [a|e|]] eqn:E.
  - injection H as <- _. exact (Hm _ _ _ E).
  - destruct (caught e).
    + rewrite (Hh e _ _ _ H). exact (Hm _ _ _ E).
    + injection H as <- _. exact (Hm _ _ _ E).
  - injection H as <- _. exact (Hm _ _ _ E).
Qed.

Lemma keeps_time_time : keeps f time_time.
Proof. intros w w' o H. injection H as <- _. apply frame_ticks. Qed.

Lemma keeps_time_sleep s : keeps f (time_sleep s).
Proof. apply keeps_ret. Qed.

Lemma keeps_ser_read : keeps f ser_read.
Proof.
  intros w w' o H. unfold ser_read in H.
  destruct (_com w) as [c|]; [destruct (ser c); [destruct (rx w (rx_pos w))|]|];
    injection H as <- _; try reflexivity; apply frame_rx_pos.
Qed.

Lemma keeps_do_input_read byte : keeps f (do_input_read byte).
Proof.
  intros w w' o H. unfold do_input_read in H.
  destruct (input_read (this w) byte). injection H as <- _. apply frame_this.
Qed.

Lemma keeps_restore_timeout : keeps f restore_timeout.
Proof.
  intros w w' o H. unfold restore_timeout in H.
  destruct (_com w) as [c|] eqn:Ec; [destruct (ser c)|]; injection H as <- _;
    try reflexivity; apply frame_ser, Ec.
Qed.

Lemma keeps_ser_close : keeps f ser_close.
Proof.
  intros w w' o H. unfold ser_close in H.
  destruct (_com w) as [c|] eqn:Ec; [destruct (ser c)|]; injection H as <- _;
    try reflexivity; apply frame_ser, Ec.
Qed.

Lemma keeps_do_run_serial_tests data : keeps f (do_run_serial_tests data).
Proof.
  intros w w' o H. unfold do_run_serial_tests in H.
  destruct (_ser_test w); injection H as <- _; reflexivity.
Qed.

Lemma keeps_get_serial_ports_list : keeps f get_serial_ports_list.
Proof.
  intros w w' o H. unfold get_serial_ports_list in H.
  destruct (_com w) as [c|]; [destruct (com_get_serial_ports_list _ _)|];
    injection H as <- _; try reflexivity; apply frame_outside.
Qed.

Lemma keeps_reset : keeps f (modify (set_this init_data_read)).
Proof. intros w w' o H. injection H as <- _. apply frame_this. Qed.

Create HintDb frame.
#[local] Hint Resolve keeps_ret keeps_raise keeps_out_of_fuel keeps_lift keeps_gets
  keeps_time_time keeps_time_sleep keeps_ser_read keeps_do_input_read
  keeps_restore_timeout keeps_ser_close frame_connect keeps_do_run_serial_tests
  keeps_get_serial_ports_list keeps_reset : frame.

(** Follow the shape of a computation down to calls already known to keep
    the observation. *)
Ltac keeps_tac :=
  repeat first
    [ progress intros
    | solve [eauto with frame]
    | apply keeps_bind
    | apply keeps_try_except
    | match goal with
      | |- keeps _ (if ?b then _ else _) => destruct b
      | |- keeps _ (match ?x with _ => _ end) => destruct x
      end ].

Lemma keeps_get_serial_packet : keeps f get_serial_packet.
Proof. unfold get_serial_packet. keeps_tac. Qed.
#[local] Hint Resolve keeps_get_serial_packet : frame.

Lemma keeps_read_data_single_loop fuel :
  forall now limit, keeps f (read_data_single_loop fuel now limit).
Proof. induction fuel as [|fuel IH]; intros now limit; cbn; keeps_tac. Qed.
#[local] Hint Resolve keeps_read_data_single_loop : frame.

Lemma keeps_read_data_single k fuel limit : keeps f (read_data_single k fuel limit).
Proof. unfold read_data_single. keeps_tac. Qed.
#[local] Hint Resolve keeps_read_data_single : frame.

Lemma keeps_read_data_to_test fuel : keeps f (read_data_to_test fuel).
Proof. unfold read_data_to_test. keeps_tac. Qed.
#[local] Hint Resolve keeps_read_data_to_test : frame.

Lemma keeps_test_serial_ports_loop fuel ports :
  keeps f (test_serial_ports_loop fuel ports).
Proof. induction ports as [|port rest IH]; cbn; keeps_tac. Qed.
#[local] Hint Resolve keeps_test_serial_ports_loop : frame.

Lemma keeps_test_serial_ports fuel ports : keeps f (test_serial_ports fuel ports).
Proof. unfold test_serial_ports. keeps_tac. Qed.
#[local] Hint Resolve keeps_test_serial_ports : frame.

Lemma keeps_search_serial_port fuel : keeps f (search_serial_port fuel).
Proof. unfold search_serial_port. keeps_tac. Qed.
#[local] Hint Resolve keeps_search_serial_port : frame.

Lemma keeps_wait_or_search_loop fuel sweeps :
  forall now limit, keeps f (wait_or_search_loop sweeps fuel now limit).
Proof. induction sweeps as [|sweeps IH]; intros now limit; cbn; keeps_tac. Qed.
#[local] Hint Resolve keeps_wait_or_search_loop : frame.

Lemma keeps_wait_or_search fuel limit :
  keeps f (wait_or_search_serial_connection fuel limit).
Proof. unfold wait_or_search_serial_connection. keeps_tac. Qed.

(** The first part of an iteration of the controller's loop: the read and,
    when it raises, the recovery and the read that follows. *)
Lemma keeps_read_or_recover fuel (now tim climit : Q) :
  keeps f
    (try_except
       (bind get_serial_packet (fun packet => ret (now, tim, packet)))
       caught_by_callback_loop
       (fun _ =>
          bind (wait_or_search_serial_connection fuel climit)
            (fun ok : bool =>
               if ok
               then bind time_time
                      (fun t => bind get_serial_packet
                                  (fun packet => ret (t, t, packet)))
               else ret (now, tim, None)))).
Proof. pose proof (keeps_wait_or_search fuel climit). keeps_tac. Qed.

End FrameFacts.

(** No computation above but the callback touches the log of calls. *)
#[local] Instance calls_frame : Frame calls.
Proof.
  split; try reflexivity.
  intros port t w w' o H. unfold connect in H.
  destruct (_com w) as [c|]; [destruct (com_connect _ _ _ _) as [[e c'] ok]|];
    injection H as <- _; reflexivity.
Qed.

(** Nothing above changes the configured timeout, as long as [connect]
    with a [timeout] argument keeps the connection's [_timeout]. *)
Lemma configured_timeout_frame :
  (forall e c port t, _timeout (snd (fst (com_connect e c port t))) = _timeout c) ->
  Frame configured_timeout.
Proof.
  intros Hc. split; try reflexivity.
  - intros w c s Ec. unfold configured_timeout. cbn. rewrite Ec. reflexivity.
  - intros port t w w' o H. unfold connect in H. unfold configured_timeout.
    destruct (_com w) as [c|] eqn:Ec; [|injection H as <- _; rewrite Ec; reflexivity].
    specialize (Hc (outside w) c port t).
    destruct (com_connect _ _ _ _) as [[e c'] ok].
    injection H as <- _. cbn in *. rewrite Hc. reflexivity.
Qed.

(** *** Port recovery *)

(** Take the first call of a sequence apart: its world and what it
    produced. *)
Tactic Notation "run_head" hyp(H) "as" ident(w1) ident(a) ident(E) :=
  lazymatch type of H with
  | (match ?x with pair _ _ => _ end) = _ =>
      destruct x as [w1 [a|?|]] eqn:E; cbv beta iota in H;
      try discriminate H
  end.

Lemma restore_timeout_ok w w' :
  restore_timeout w = (w', Ret tt) -> timeout_restored w' /\ this w' = this w.
Proof.
  unfold restore_timeout. intros H.
  destruct (_com w) as [c|]; [|discriminate H].
  destruct (ser c) as [s|]; [|discriminate H].
  injection H as <-. split; [|reflexivity].
  eexists _, _. cbn. repeat split.
Qed.

Lemma test_serial_ports_loop_true fuel ports :
  forall w w', test_serial_ports_loop fuel ports w = (w', Ret true) ->
               timeout_restored w'.
Proof.
  induction ports as [|port rest IH]; intros w w' H; cbn in H.
  - discriminate H.
  - destruct (is_serial_port port); [|exact (IH _ _ H)].
    unfold bind in H. run_head H as w1 ok E1.
    destruct ok; [|exact (IH _ _ H)].
    unfold time_sleep, ret in H. cbv beta iota in H.
    run_head H as w2 data E2. run_head H as w3 pass E3.
    destruct pass.
    + run_head H as w4 u E4. injection H as <-. destruct u.
      exact (proj1 (restore_timeout_ok _ _ E4)).
    + run_head H as w4 u E4. exact (IH _ _ H).
Qed.

Lemma test_serial_ports_true fuel ports w w' :
  test_serial_ports fuel ports w = (w', Ret true) -> timeout_restored w'.
Proof.
  unfold test_serial_ports, bind, gets. intros H.
  destruct (is_ready_to_search_ports w); [|discriminate H].
  destruct ports; [discriminate H|].
  exact (test_serial_ports_loop_true _ _ _ _ H).
Qed.

Lemma search_serial_port_true fuel w w' :
  search_serial_port fuel w = (w', Ret true) ->
  this w' = init_data_read /\ timeout_restored w'.
Proof.
  unfold search_serial_port, bind, gets. intros H.
  destruct (is_ready_to_search_ports w); [|discriminate H].
  run_head H as w1 ports E1. run_head H as w2 found E2.
  destruct found; [|discriminate H].
  unfold modify, ret in H. injection H as <-.
  split; [reflexivity|].
  destruct (test_serial_ports_true _ _ _ _ E2) as (c & s & Hc & Hs & Ht).
  exists c, s. cbn. auto.
Qed.

Lemma wait_or_search_loop_true fuel limit now sweeps :
  forall w w', wait_or_search_loop sweeps fuel now limit w = (w', Ret true) ->
               this w' = init_data_read /\ timeout_restored w'.
Proof.
  induction sweeps as [|sweeps IH]; intros w w' H; cbn in H; [discriminate H|].
  unfold bind, time_time in H. cbv beta iota in H.
  run_head H as w1 found E1. destruct found.
  - injection H as <-. exact (search_serial_port_true _ _ _ E1).
  - destruct (negb (Qle_bool _ limit)); [discriminate H|].
    unfold time_sleep, ret in H. exact (IH _ _ H).
Qed.

(** C8. When port recovery succeeds, that is when [search_serial_port] or
    [wait_or_search_serial_connection] returns [True], the object it leaves
    has its decoder attributes as [init_data_read] sets them and
    [ser.timeout] equal to the connection's configured [_timeout]; reading
    goes on from that object. The configured value is the one from before
    the recovery wherever [connect], called with [timeout=0], keeps the
    connection's [_timeout]. *)
Theorem port_recovery_success (fuel : nat) (limit : Q) (w w' : world) :
  search_serial_port fuel w = (w', Ret true)
  \/ wait_or_search_serial_connection fuel limit w = (w', Ret true) ->
  this w' = init_data_read
  /\ (exists c s, _com w' = Some c /\ ser c = Some s /\ timeout s = _timeout c)
  /\ ((forall e c port t, _timeout (snd (fst (com_connect e c port t))) = _timeout c) ->
      configured_timeout w' = configured_timeout w).
Proof.
  intros H.
  assert (Hpost : this w' = init_data_read /\ timeout_restored w').
  { destruct H as [H|H].
    - exact (search_serial_port_true _ _ _ H).
    - unfold wait_or_search_serial_connection, bind, gets, time_time in H.
      destruct (is_ready_to_search_ports w); [|discriminate H].
      exact (wait_or_search_loop_true _ _ _ _ _ _ H). }
  destruct Hpost as [Hd Ht]. split; [exact Hd|]. split; [exact Ht|].
  intros Hc. pose proof (configured_timeout_frame Hc) as Hf.
  destruct H as [H|H].
  - exact (keeps_search_serial_port configured_timeout fuel _ _ _ H).
  - exact (keeps_wait_or_search configured_timeout fuel limit _ _ _ H).
Qed.

(** What the controller's loop adds to the log: blocks only. When it returns
    it returns [True], [max_loops] is an [int] that the count has reached,
    and reached exactly when it started below. *)
Lemma controller_loop_log fuel :
  forall now limit climit ml i w w' o,
    VedirectController_read_data_callback_loop fuel now limit climit ml i w = (w', o) ->
    exists blocks,
      calls w' = calls w ++ map Some blocks
      /\ (forall r, o = Ret r ->
            r = Some true
            /\ exists m, ml = Some m /\ m <= i + Z.of_nat (length blocks)
                         /\ (i < m -> i + Z.of_nat (length blocks) = m)).
Proof.
  induction fuel as [|fuel IH]; intros now limit climit ml i w w' o H;
    cbn [VedirectController_read_data_callback_loop] in H.
  - injection H as <- <-. exists []. rewrite app_nil_r.
    split; [reflexivity | intros r Hr; discriminate Hr].
  - unfold bind at 1 in H. unfold time_time at 1 in H. cbv beta iota in H.
    unfold bind at 1 in H.
    match type of H with
    | (let (_, _) := ?m ?w0 in _) = _ =>
        destruct (m w0) as [w2 [r|e|]] eqn:E2;
        apply (keeps_read_or_recover calls) in E2
    end; cbn [calls set_ticks] in E2.
    2,3: injection H as <- <-; exists []; rewrite app_nil_r;
         split; [exact E2 | intros r Hr; discriminate Hr].
    destruct r as [[now' tim'] packet].
    destruct packet as [p|].
    + unfold bind at 1 in H. unfold bind at 1 in H.
      unfold callback, modify in H. unfold ret at 1 in H.
      cbv beta iota in H. cbn [fst snd] in H.
      unfold bind at 1 in H. unfold lift at 1 in H.
      destruct (is_timeout (tim' - tim') limit) as [b|e|].
      2,3: injection H as <- <-; exists [p]; cbn [calls set_calls map];
           rewrite E2; split; [reflexivity | intros r Hr; discriminate Hr].
      destruct ml as [m|].
      * destruct (Z.leb_spec m (i + 1)) as [Hm|Hm].
        -- injection H as <- <-. exists [p]. cbn [calls set_calls map].
           rewrite E2. split; [reflexivity|].
           intros r Hr. injection Hr as <-. split; [reflexivity|].
           exists m. cbn [length]. repeat split; lia.
        -- unfold bind at 1, time_sleep, ret at 1 in H.
           apply IH in H. destruct H as (blocks & Hc & Hr).
           exists (p :: blocks). cbn [calls set_calls] in Hc.
           rewrite Hc, E2, <- app_assoc. split; [reflexivity|].
           intros r Ho. destruct (Hr r Ho) as (-> & m' & Hm' & Hle & Heq).
           injection Hm' as <-. split; [reflexivity|].
           exists m. cbn [length]. repeat split; lia.
      * unfold bind at 1, time_sleep, ret at 1 in H.
        apply IH in H. destruct H as (blocks & Hc & Hr).
        exists (p :: blocks). cbn [calls set_calls] in Hc.
        rewrite Hc, E2, <- app_assoc. split; [reflexivity|].
        intros r Ho. destruct (Hr r Ho) as (_ & m' & Hm' & _). discriminate Hm'.
    + unfold bind at 1 in H. unfold ret at 1 in H.
      cbv beta iota in H. cbn [fst snd] in H.
      unfold bind at 1 in H. unfold lift at 1 in H.
      destruct (is_timeout (tim' - now') limit) as [b|e|].
      2,3: injection H as <- <-; exists []; rewrite app_nil_r;
           split; [exact E2 | intros r Hr; discriminate Hr].
      destruct ml as [m|].
      * destruct (Z.leb_spec m i) as [Hm|Hm].
        -- injection H as <- <-. exists []. rewrite app_nil_r.
           split; [exact E2|].
           intros r Hr. injection Hr as <-. split; [reflexivity|].
           exists m. cbn [length]. repeat split; lia.
        -- unfold bind at 1, time_sleep, ret at 1 in H.
           apply IH in H. destruct H as (blocks & Hc & Hr).
           exists blocks. rewrite Hc, E2. split; [reflexivity|]. exact Hr.
      * unfold bind at 1, time_sleep, ret at 1 in H.
        apply IH in H. destruct H as (blocks & Hc & Hr).
        exists blocks. rewrite Hc, E2. split; [reflexivity|]. exact Hr.
Qed.

(** The same for the loop of the base class, whose exit test also asks for
    [0 < max_loops]. *)
Lemma vedirect_loop_log fuel :
  forall now limit ml i w w' o,
    Vedirect_read_data_callback_loop fuel now limit ml i w = (w', o) ->
    exists blocks,
      calls w' = calls w ++ map Some blocks
      /\ (forall r, o = Ret r ->
            r = Some true
            /\ exists m, ml = Some m /\ 0 < m /\ m <= i + Z.of_nat (length blocks)
                         /\ (i < m -> i + Z.of_nat (length blocks) = m)).
Proof.
  induction fuel as [|fuel IH]; intros now limit ml i w w' o H;
    cbn [Vedirect_read_data_callback_loop] in H.
  - injection H as <- <-. exists []. rewrite app_nil_r.
    split; [reflexivity | intros r Hr; discriminate Hr].
  - unfold bind at 1 in H. unfold time_time at 1 in H. cbv beta iota in H.
    unfold bind at 1 in H.
    match type of H with
    | (let (_, _) := ?m ?w0 in _) = _ =>
        destruct (m w0) as [w2 [packet|e|]] eqn:E2;
        apply (keeps_get_serial_packet calls) in E2
    end; cbn [calls set_ticks] in E2.
    2,3: injection H as <- <-; exists []; rewrite app_nil_r;
         split; [exact E2 | intros r Hr; discriminate Hr].
    destruct packet as [p|].
    + unfold bind at 1 in H. unfold bind at 1 in H.
      unfold callback, modify in H. unfold ret at 1 in H.
      cbv beta iota in H. cbn [fst snd] in H.
      unfold bind at 1 in H. unfold lift at 1 in H.
      destruct (is_timeout _ limit) as [b|e|].
      2,3: injection H as <- <-; exists [p]; cbn [calls set_calls map];
           rewrite E2; split; [reflexivity | intros r Hr; discriminate Hr].
      destruct ml as [m|].
      * destruct (Z.ltb_spec 0 m) as [Hp|Hp];
          [destruct (Z.leb_spec m (i + 1)) as [Hm|Hm]|]; cbn [andb] in H.
        -- injection H as <- <-. exists [p]. cbn [calls set_calls map].
           rewrite E2. split; [reflexivity|].
           intros r Hr. injection Hr as <-. split; [reflexivity|].
           exists m. cbn [length]. repeat split; lia.
        -- unfold bind at 1, time_sleep, ret at 1 in H.
           apply IH in H. destruct H as (blocks & Hc & Hr).
           exists (p :: blocks). cbn [calls set_calls] in Hc.
           rewrite Hc, E2, <- app_assoc. split; [reflexivity|].
           intros r Ho. destruct (Hr r Ho) as (-> & m' & Hm' & Hpos & Hle & Heq).
           injection Hm' as <-. split; [reflexivity|].
           exists m. cbn [length]. repeat split; lia.
        -- unfold bind at 1, time_sleep, ret at 1 in H.
           apply IH in H. destruct H as (blocks & Hc & Hr).
           exists (p :: blocks). cbn [calls set_calls] in Hc.
           rewrite Hc, E2, <- app_assoc. split; [reflexivity|].
           intros r Ho. destruct (Hr r Ho) as (_ & m' & Hm' & Hpos & _).
           injection Hm' as <-. lia.
      * unfold bind at 1, time_sleep, ret at 1 in H.
        apply IH in H. destruct H as (blocks & Hc & Hr).
        exists (p :: blocks). cbn [calls set_calls] in Hc.
        rewrite Hc, E2, <- app_assoc. split; [reflexivity|].
        intros r Ho. destruct (Hr r Ho) as (_ & m' & Hm' & _). discriminate Hm'.
    + unfold bind at 1 in H. unfold ret at 1 in H.
      cbv beta iota in H. cbn [fst snd] in H.
      unfold bind at 1 in H. unfold lift at 1 in H.
      destruct (is_timeout _ limit) as [b|e|].
      2,3: injection H as <- <-; exists []; rewrite app_nil_r;
           split; [exact E2 | intros r Hr; discriminate Hr].
      destruct ml as [m|].
      * destruct (Z.ltb_spec 0 m) as [Hp|Hp];
          [destruct (Z.leb_spec m i) as [Hm|Hm]|]; cbn [andb] in H.
        -- injection H as <- <-. exists []. rewrite app_nil_r.
           split; [exact E2|].
           intros r Hr. injection Hr as <-. split; [reflexivity|].
           exists m. cbn [length]. repeat split; lia.
        -- unfold bind at 1, time_sleep, ret at 1 in H.
           apply IH in H. destruct H as (blocks & Hc & Hr).
           exists blocks. rewrite Hc, E2. split; [reflexivity|]. exact Hr.
        -- unfold bind at 1, time_sleep, ret at 1 in H.
           apply IH in H. destruct H as (blocks & Hc & Hr).
           exists blocks. rewrite Hc, E2. split; [reflexivity|]. exact Hr.
      * unfold bind at 1, time_sleep, ret at 1 in H.
        apply IH in H. destruct H as (blocks & Hc & Hr).
        exists blocks. rewrite Hc, E2. split; [reflexivity|]. exact Hr.
Qed.

Lemma is_ready_set_ticks k n w : is_ready k (set_ticks n w) = is_ready k w.
Proof. destruct k; reflexivity. Qed.

(** C6 as amended. [read_data_callback] of the controller, ready at entry,
    invokes the callback with blocks only; when it returns it returns
    [True], and for [max_loops >= 1] exactly [max_loops] blocks were
    delivered: the [None] sentinel is not invoked on that exit, nor when an
    error is raised. Not ready at entry, it invokes the callback once, with
    [None], and returns [None]. The method of the base class never invokes
    the callback with [None]; not ready at entry, it raises
    [VedirectException]. *)
Theorem read_data_callback_sentinel (fuel : nat) (limit climit : Q)
    (max_loops : option Z) (w w' : world) (o : outcome (option bool)) :
  (VedirectController_read_data_callback fuel limit climit max_loops w = (w', o) ->
   if is_ready VedirectController w
   then exists blocks,
          calls w' = calls w ++ map Some blocks
          /\ (forall r, o = Ret r ->
                r = Some true
                /\ forall m, max_loops = Some m -> 1 <= m ->
                             Z.of_nat (length blocks) = m)
   else o = Ret None /\ calls w' = calls w ++ [None])
  /\ (Vedirect_read_data_callback fuel limit max_loops w = (w', o) ->
      if is_ready Vedirect w
      then exists blocks,
             calls w' = calls w ++ map Some blocks
             /\ (forall r, o = Ret r ->
                   r = Some true
                   /\ exists m, max_loops = Some m /\ 1 <= m
                                /\ Z.of_nat (length blocks) = m)
      else o = Raise VedirectException /\ calls w' = calls w).
Proof.
  split; intros H.
  - unfold VedirectController_read_data_callback in H.
    unfold bind at 1, time_time at 1 in H. cbv beta iota in H.
    unfold bind at 1, gets at 1 in H. cbv beta iota in H.
    rewrite is_ready_set_ticks in H.
    destruct (is_ready VedirectController w).
    + apply controller_loop_log in H. destruct H as (blocks & Hc & Hr).
      exists blocks. split; [exact Hc|].
      intros r Ho. destruct (Hr r Ho) as (-> & m & Hm & Hle & Heq).
      split; [reflexivity|]. intros m' Hm' Hpos.
      rewrite Hm in Hm'. injection Hm' as <-. lia.
    + injection H as <- <-. split; reflexivity.
  - unfold Vedirect_read_data_callback in H.
    unfold bind at 1, time_time at 1 in H. cbv beta iota in H.
    unfold bind at 1, gets at 1 in H. cbv beta iota in H.
    rewrite is_ready_set_ticks in H.
    destruct (is_ready Vedirect w).
    + apply vedirect_loop_log in H. destruct H as (blocks & Hc & Hr).
      exists blocks. split; [exact Hc|].
      intros r Ho. destruct (Hr r Ho) as (-> & m & Hm & Hpos & Hle & Heq).
      split; [reflexivity|]. exists m. repeat split; [exact Hm | lia | lia].
    + injection H as <- <-. split; reflexivity.
Qed.

End SupervisorFacts.

Lemma get_serial_packet_skips_nul_witness :
  get_serial_packet demo_world_nul
  = (set_this (mkDecoder "" "" 13 WAIT_HEADER ∅) (set_rx_pos 2 demo_world_nul), Ret None).
Proof.
  exact (get_serial_packet_skips_nul demo_world_nul
           (mkCom "/dev/ttyUSB1" (Some 5%Q) (Some (mkSerial (Some 5%Q) true)))
           (mkSerial (Some 5%Q) true) eq_refl eq_refl eq_refl).
Defined.

Lemma read_data_single_not_ready_witness :
  read_data_single VedirectController 10 60 demo_world_lost
  = (set_ticks 1 demo_world_lost, Ret None).
Proof.
  exact (read_data_single_not_ready VedirectController 10 60 demo_world_lost eq_refl).
Defined.

(** After the port was lost, the sweep skips [/dev/ttyUSB0], opens
    [/dev/ttyUSB1] without a read timeout, reads [frame_pid] there, and
    ends with the decoder reset and the 5 s read timeout back in place. *)
Lemma port_recovery_success_witness :
  this (fst (wait_or_search_serial_connection 60 30 demo_world_lost)) = init_data_read
  /\ (exists c s,
       _com (fst (wait_or_search_serial_connection 60 30 demo_world_lost)) = Some c
       /\ ser c = Some s /\ timeout s = _timeout c)
  /\ configured_timeout (fst (wait_or_search_serial_connection 60 30 demo_world_lost))
     = Some (Some 5%Q).
Proof.
  destruct (port_recovery_success 60 30 demo_world_lost
              (fst (wait_or_search_serial_connection 60 30 demo_world_lost)))
    as (Hd & Ht & Hc).
  - right. vm_compute. reflexivity.
  - split; [exact Hd|]. split; [exact Ht|].
    rewrite Hc; [reflexivity|].
    intros e c port t. cbn. destruct (String.eqb port "/dev/ttyUSB1"); reflexivity.
Defined.

Example port_recovery_demo :
  snd (wait_or_search_serial_connection 60 30 demo_world_lost) = Ret true
  /\ _com (fst (wait_or_search_serial_connection 60 30 demo_world_lost))
     = Some (mkCom "/dev/ttyUSB1" (Some 5%Q) (Some (mkSerial (Some 5%Q) true))).
Proof. split; vm_compute; reflexivity. Qed.

(** C6, the claim at a concrete input: the controller of [demo_world],
    asked for one block ([max_loops = 1]), delivers the block of
    [frame_pid] and returns [True]; the callback was invoked once, with the
    block, and never with [None]. The method of the base class does the
    same. *)
Lemma sentinel_counterexample :
  snd (VedirectController_read_data_callback 30 60 3600 (Some 1) demo_world)
    = Ret (Some true)
  /\ calls (fst (VedirectController_read_data_callback 30 60 3600 (Some 1) demo_world))
    = [Some {[ "PID" := "0x203" ]}]
  /\ snd (Vedirect_read_data_callback 30 60 (Some 1) demo_world) = Ret (Some true)
  /\ calls (fst (Vedirect_read_data_callback 30 60 (Some 1) demo_world))
    = [Some {[ "PID" := "0x203" ]}].
Proof. repeat split; vm_compute; reflexivity. Qed.

Lemma read_data_callback_sentinel_witness :
  if is_ready VedirectController demo_world
  then exists blocks,
         calls (fst (VedirectController_read_data_callback 30 60 3600 (Some 1) demo_world))
         = calls demo_world ++ map Some blocks
         /\ (forall r,
               snd (VedirectController_read_data_callback 30 60 3600 (Some 1) demo_world)
               = Ret r ->
               r = Some true
               /\ forall m, Some 1 = Some m -> 1 <= m -> Z.of_nat (length blocks) = m)
  else snd (VedirectController_read_data_callback 30 60 3600 (Some 1) demo_world) = Ret None
       /\ calls (fst (VedirectController_read_data_callback 30 60 3600 (Some 1) demo_world))
          = calls demo_world ++ [None].
Proof.
  apply (proj1 (read_data_callback_sentinel 30 60 3600 (Some 1) demo_world _ _)).
  apply surjective_pairing.
Defined.

(** The controller whose port is lost invokes the callback with [None]
    once and returns [None]. *)
Example not_ready_sentinel_demo :
  snd (VedirectController_read_data_callback 30 60 3600 (Some 1) demo_world_lost)
    = Ret None
  /\ calls (fst (VedirectController_read_data_callback 30 60 3600 (Some 1) demo_world_lost))
    = [None].
Proof. split; vm_compute; reflexivity. Qed.

(** * Further properties of the decoder *)

Lemma feed_app d l1 l2 : feed d (l1 ++ l2) = feed (feed d l1) l2.
Proof. unfold feed. apply fold_left_app. Qed.

Lemma feed_out_app l1 : forall d l2,
  feed_out d (l1 ++ l2) = feed_out d l1 ++ feed_out (feed d l1) l2.
Proof.
  induction l1 as [|x l1 IH]; intros d l2; [reflexivity|].
  cbn [feed_out app]. rewrite IH. reflexivity.
Qed.

Lemma singles_app a b : singles (a ++ b) = singles a ++ singles b.
Proof. unfold singles. apply map_app. Qed.

Lemma sum_bytes_cons b bs : sum_bytes (b :: bs) = nbyte_of b + sum_bytes bs.
Proof. reflexivity. Qed.

Lemma sum_bytes_app a b : sum_bytes (a ++ b) = sum_bytes a + sum_bytes b.
Proof.
  unfold sum_bytes.
  induction a as [|x a IH]; cbn [app fold_right]; [lia | rewrite IH; lia].
Qed.

Lemma append_snoc (k : string) (c : ascii) (r : string) :
  ((k ++ String c EmptyString) ++ r)%string = (k ++ String c r)%string.
Proof.
  induction k as [|a k IH]; [reflexivity|].
  change (String a ((k ++ String c EmptyString) ++ r)%string
          = String a (k ++ String c r)%string).
  rewrite IH. reflexivity.
Qed.

Lemma append_empty_r (k : string) : (k ++ "")%string = k.
Proof.
  induction k as [|a k IH]; [reflexivity|].
  change (String a (k ++ "")%string = String a k). rewrite IH. reflexivity.
Qed.

Lemma runs_quiet_nil d : runs_quiet d [] d.
Proof. split; reflexivity. Qed.

Lemma runs_quiet_app d b1 d1 b2 d2 :
  runs_quiet d b1 d1 -> runs_quiet d1 b2 d2 -> runs_quiet d (b1 ++ b2) d2.
Proof.
  intros [F1 O1] [F2 O2]. split.
  - rewrite singles_app, feed_app, F1. exact F2.
  - rewrite singles_app, feed_out_app, F1, O1, O2, length_app, repeat_app.
    reflexivity.
Qed.

Lemma runs_quiet_one d b d' :
  input_read d (PyBytes [b]) = (d', Ret None) -> runs_quiet d [b] d'.
Proof.
  intros H. split.
  - unfold feed, singles. cbn [map fold_left]. rewrite H. reflexivity.
  - unfold singles. cbn [map feed_out length repeat]. rewrite H. reflexivity.
Qed.

Lemma text_ok_cons sep b bs :
  text_ok sep (b :: bs) = true ->
  nbyte_of b < 128 /\ nbyte_of b <> sep /\ text_ok sep bs = true.
Proof.
  unfold text_ok. cbn [forallb]. intros H.
  apply andb_prop in H as [H1 H3]. apply andb_prop in H1 as [H1 H2].
  apply Z.ltb_lt in H1. apply negb_true_iff, Z.eqb_neq in H2. auto.
Qed.

(** The bytes of a key, fed in IN_KEY, are appended to the key. *)
Lemma runs_quiet_key kb : forall k v s m,
  text_ok delimiter kb = true ->
  runs_quiet (mkDecoder k v s IN_KEY m) kb
    (mkDecoder (k ++ string_of_list_byte kb) v (s + sum_bytes kb) IN_KEY m).
Proof.
  induction kb as [|b kb IH]; intros k v s m Hok.
  - cbn. rewrite append_empty_r, Z.add_0_r. apply runs_quiet_nil.
  - apply text_ok_cons in Hok as (Hlo & Hsep & Hok).
    change (b :: kb) with ([b] ++ kb).
    eapply runs_quiet_app.
    + apply runs_quiet_one. unfold input_read. cbn [py_ord py_eq_int andb state].
      cbn [bytes_sum set_bytes_sum key value dict state].
      destruct (Z.eqb_spec (nbyte_of b) delimiter) as [E|_]; [contradiction|].
      rewrite (decode_single_ascii b Hlo). reflexivity.
    + cbn [set_key set_bytes_sum key value bytes_sum state dict].
      specialize (IH (k ++ String (ascii_of_byte b) EmptyString)%string v
                     (s + nbyte_of b) m Hok).
      rewrite append_snoc in IH.
      replace (s + sum_bytes ([b] ++ kb)) with (s + nbyte_of b + sum_bytes kb)
        by (change ([b] ++ kb) with (b :: kb); rewrite sum_bytes_cons; lia).
      exact IH.
Qed.

(** The bytes of a value, fed in IN_VALUE, are appended to the value. *)
Lemma runs_quiet_value vb : forall k v s m,
  text_ok header1 vb = true ->
  runs_quiet (mkDecoder k v s IN_VALUE m) vb
    (mkDecoder k (v ++ string_of_list_byte vb) (s + sum_bytes vb) IN_VALUE m).
Proof.
  induction vb as [|b vb IH]; intros k v s m Hok.
  - cbn. rewrite append_empty_r, Z.add_0_r. apply runs_quiet_nil.
  - apply text_ok_cons in Hok as (Hlo & Hsep & Hok).
    change (b :: vb) with ([b] ++ vb).
    eapply runs_quiet_app.
    + apply runs_quiet_one. unfold input_read. cbn [py_ord py_eq_int andb state].
      cbn [bytes_sum set_bytes_sum key value dict state].
      destruct (Z.eqb_spec (nbyte_of b) header1) as [E|_]; [contradiction|].
      rewrite (decode_single_ascii b Hlo). reflexivity.
    + cbn [set_value set_bytes_sum key value bytes_sum state dict].
      specialize (IH k (v ++ String (ascii_of_byte b) EmptyString)%string
                     (s + nbyte_of b) m Hok).
      rewrite append_snoc in IH.
      replace (s + sum_bytes ([b] ++ vb)) with (s + nbyte_of b + sum_bytes vb)
        by (change ([b] ++ vb) with (b :: vb); rewrite sum_bytes_cons; lia).
      exact IH.
Qed.

(** A whole line, fed in WAIT_HEADER with empty buffers, commits its pair
    and comes back to WAIT_HEADER with empty buffers. *)
Lemma runs_quiet_field kv s m :
  field_ok kv = true ->
  runs_quiet (mkDecoder "" "" s WAIT_HEADER m) (field_line kv)
    (mkDecoder "" "" (s + sum_bytes (field_line kv)) WAIT_HEADER
       (<[string_of_list_byte (fst kv) := string_of_list_byte (snd kv)]> m)).
Proof.
  destruct kv as [kb vb]. unfold field_ok, field_line. cbn [fst snd]. intros H.
  apply andb_prop in H as [H Hck]. apply andb_prop in H as [Hk Hv].
  apply negb_true_iff in Hck.
  eapply runs_quiet_app; [apply runs_quiet_one; reflexivity|].
  eapply runs_quiet_app; [apply (runs_quiet_key kb _ _ _ _ Hk)|].
  change ("" ++ string_of_list_byte kb)%string with (string_of_list_byte kb).
  eapply runs_quiet_app.
  { apply runs_quiet_one. unfold input_read.
    cbn [py_ord py_eq_int andb state set_bytes_sum bytes_sum key value dict].
    change (nbyte_of x09 =? delimiter) with true. cbv beta iota.
    change ("" ++ string_of_list_byte kb)%string with (string_of_list_byte kb).
    rewrite Hck. reflexivity. }
  eapply runs_quiet_app; [apply (runs_quiet_value vb _ _ _ _ Hv)|].
  change ("" ++ string_of_list_byte vb)%string with (string_of_list_byte vb).
  cbn [set_state set_bytes_sum key value bytes_sum state dict].
  replace (s + sum_bytes (LF ++ kb ++ TAB ++ vb ++ CR))
    with (s + 10 + sum_bytes kb + 9 + sum_bytes vb + 13)
    by (rewrite !sum_bytes_app; cbn; lia).
  apply runs_quiet_one. reflexivity.
Qed.

Lemma runs_quiet_fields fields : forall s m,
  forallb field_ok fields = true ->
  runs_quiet (mkDecoder "" "" s WAIT_HEADER m) (concat (map field_line fields))
    (mkDecoder "" "" (s + sum_bytes (concat (map field_line fields))) WAIT_HEADER
       (commit_fields fields m)).
Proof.
  induction fields as [|kv fields IH]; intros s m Hok.
  - cbn. rewrite Z.add_0_r. apply runs_quiet_nil.
  - cbn [forallb] in Hok. apply andb_prop in Hok as [Hkv Hok].
    cbn [map concat commit_fields fold_left].
    eapply runs_quiet_app; [apply (runs_quiet_field kv s m Hkv)|].
    rewrite sum_bytes_app, Z.add_assoc. apply IH, Hok.
Qed.

(** The body of a frame brings the decoder to IN_CHECKSUM with all its
    lines committed. *)
Lemma runs_quiet_body fields s m :
  forallb field_ok fields = true ->
  runs_quiet (mkDecoder "" "" s WAIT_HEADER m) (frame_body fields)
    (mkDecoder "Checksum" "" (s + sum_bytes (frame_body fields)) IN_CHECKSUM
       (commit_fields fields m)).
Proof.
  intros Hok. unfold frame_body.
  eapply runs_quiet_app; [apply runs_quiet_one; reflexivity|].
  eapply runs_quiet_app; [apply (runs_quiet_fields fields _ _ Hok)|].
  eapply runs_quiet_app; [apply runs_quiet_one; reflexivity|].
  eapply runs_quiet_app;
    [apply (runs_quiet_key (B "Checksum") "" _ _ _ eq_refl)|].
  cbn [set_state set_bytes_sum key value bytes_sum state dict].
  replace (s + sum_bytes (CR ++ concat (map field_line fields) ++ LF ++ B "Checksum" ++ TAB))
    with (s + 13 + sum_bytes (concat (map field_line fields)) + 10
          + sum_bytes (B "Checksum") + 9)
    by (rewrite !sum_bytes_app; cbn; lia).
  apply runs_quiet_one. reflexivity.
Qed.

(** A text frame, lines then checksum byte [c], fed byte by byte to a
    decoder at rest (WAIT_HEADER, empty buffers, any accumulated sum [s0]
    and mapping [m0]): no call before the last returns anything or raises;
    the call on [c] returns the mapping with every line committed when the
    sum of all bytes since [s0] is 0 mod 256, and nothing otherwise; either
    way the decoder is at rest again with [bytes_sum = 0] and the lines
    committed. *)
Lemma feed_frame (fields : list (list byte * list byte)) (c : byte)
    (s0 : Z) (m0 : gmap string string) :
  forallb field_ok fields = true ->
  feed_out (mkDecoder "" "" s0 WAIT_HEADER m0) (singles (frame_body fields ++ [c]))
  = repeat (Ret None) (length (frame_body fields))
    ++ [Ret (if (s0 + sum_bytes (frame_body fields ++ [c])) mod 256 =? 0
             then Some (commit_fields fields m0) else None)]
  /\ feed (mkDecoder "" "" s0 WAIT_HEADER m0) (singles (frame_body fields ++ [c]))
     = mkDecoder "" "" 0 WAIT_HEADER (commit_fields fields m0).
Proof.
  intros Hok. destruct (runs_quiet_body fields s0 m0 Hok) as [F O].
  rewrite singles_app, feed_out_app, feed_app, F, O, sum_bytes_app.
  cbn [singles map feed feed_out fold_left sum_bytes fold_right].
  unfold input_read. cbn [py_ord py_eq_int andb state set_bytes_sum set_key
    set_value set_state bytes_sum dict key value fst snd].
  rewrite Z.add_0_r, Z.add_assoc.
  destruct (_ mod 256 =? 0); split; reflexivity.
Qed.

(** X1. A text frame, lines then checksum byte [c], fed byte by byte to a
    decoder at rest (WAIT_HEADER, empty buffers, any accumulated sum [s0]
    and mapping [m0]): no call before the last returns anything or raises;
    the call on [c] returns the mapping with every line committed when the
    sum of all bytes since [s0] is 0 mod 256, and nothing otherwise; either
    way the decoder is at rest again with [bytes_sum = 0] and the lines
    committed. *)
Theorem frame_decodes (fields : list (list byte * list byte)) (c : byte)
    (s0 : Z) (m0 : gmap string string) :
  forallb field_ok fields = true ->
  feed_out (mkDecoder "" "" s0 WAIT_HEADER m0) (singles (frame_body fields ++ [c]))
  = repeat (Ret None) (length (frame_body fields))
    ++ [Ret (if (s0 + sum_bytes (frame_body fields ++ [c])) mod 256 =? 0
             then Some (commit_fields fields m0) else None)]
  /\ feed (mkDecoder "" "" s0 WAIT_HEADER m0) (singles (frame_body fields ++ [c]))
     = mkDecoder "" "" 0 WAIT_HEADER (commit_fields fields m0).
Proof.
  intros Hok. destruct (runs_quiet_body fields s0 m0 Hok) as [F O].
  rewrite singles_app, feed_out_app, feed_app, F, O, sum_bytes_app.
  cbn [singles map feed feed_out fold_left sum_bytes fold_right].
  unfold input_read. cbn [py_ord py_eq_int andb state set_bytes_sum set_key
    set_value set_state bytes_sum dict key value fst snd].
  rewrite Z.add_0_r, Z.add_assoc.
  destruct (_ mod 256 =? 0); split; reflexivity.
Qed.

Lemma frame_decodes_witness :
  feed_out (mkDecoder "" "" 0 WAIT_HEADER ∅)
    (singles (frame_body [(B "PID", B "0x203")] ++ [checksum_byte (frame_body [(B "PID", B "0x203")])]))
  = repeat (Ret None) (length (frame_body [(B "PID", B "0x203")]))
    ++ [Ret (if (0 + sum_bytes (frame_body [(B "PID", B "0x203")]
                                 ++ [checksum_byte (frame_body [(B "PID", B "0x203")])]))
                  mod 256 =? 0
             then Some (commit_fields [(B "PID", B "0x203")] ∅) else None)]
  /\ feed (mkDecoder "" "" 0 WAIT_HEADER ∅)
       (singles (frame_body [(B "PID", B "0x203")] ++ [checksum_byte (frame_body [(B "PID", B "0x203")])]))
     = mkDecoder "" "" 0 WAIT_HEADER (commit_fields [(B "PID", B "0x203")] ∅).
Proof.
  exact (frame_decodes [(B "PID", B "0x203")]
           (checksum_byte (frame_body [(B "PID", B "0x203")])) 0 ∅ eq_refl).
Defined.

Lemma nbyte_of_checksum_byte bs :
  nbyte_of (checksum_byte bs) = (256 - sum_bytes bs mod 256) mod 256.
Proof.
  unfold checksum_byte, nbyte_of.
  pose proof (Z.mod_pos_bound (256 - sum_bytes bs mod 256) 256 ltac:(lia)) as Hr.
  destruct (Byte.of_N _) as [b|] eqn:E.
  - apply Byte.to_of_N in E. rewrite E. rewrite Z2N.id; lia.
  - apply Byte.of_N_None_iff in E. lia.
Qed.

Lemma checksum_byte_sum bs : sum_bytes (with_checksum bs) mod 256 = 0.
Proof.
  unfold with_checksum. rewrite sum_bytes_snoc, nbyte_of_checksum_byte.
  rewrite Z.add_mod_idemp_r by lia.
  replace (sum_bytes bs + (256 - sum_bytes bs mod 256))
    with (256 + (sum_bytes bs - sum_bytes bs mod 256)) by lia.
  rewrite (Z.div_mod (sum_bytes bs) 256) at 1 by lia.
  replace (256 + (256 * (sum_bytes bs / 256) + sum_bytes bs mod 256 - sum_bytes bs mod 256))
    with ((1 + sum_bytes bs / 256) * 256) by lia.
  apply Z.mod_mul. lia.
Qed.

(** X2. Round trip: the lines of a frame, followed by the byte that brings
    the sum of the frame to 0 mod 256, fed to a fresh decoder, give back
    exactly the mapping of the lines, on the last call and on no other. *)
Theorem frame_round_trip (fields : list (list byte * list byte)) :
  forallb field_ok fields = true ->
  feed_out init_data_read (singles (with_checksum (frame_body fields)))
  = repeat (Ret None) (length (frame_body fields))
    ++ [Ret (Some (commit_fields fields ∅))].
Proof.
  intros Hok. unfold with_checksum, init_data_read.
  rewrite (proj1 (feed_frame fields _ 0 ∅ Hok)).
  rewrite Z.add_0_l.
  change (frame_body fields ++ [checksum_byte (frame_body fields)])
    with (with_checksum (frame_body fields)).
  rewrite checksum_byte_sum. reflexivity.
Qed.

Lemma frame_round_trip_witness :
  feed_out init_data_read
    (singles (with_checksum (frame_body [(B "PID", B "0x203"); (B "V", B "12800")])))
  = repeat (Ret None) (length (frame_body [(B "PID", B "0x203"); (B "V", B "12800")]))
    ++ [Ret (Some (commit_fields [(B "PID", B "0x203"); (B "V", B "12800")] ∅))].
Proof.
  exact (frame_round_trip [(B "PID", B "0x203"); (B "V", B "12800")] eq_refl).
Defined.

(** X3. A frame with a wrong checksum byte is dropped without a word, and
    the valid frame that follows it is decoded; its block also carries the
    lines of the dropped frame, which stay in the mapping until a later
    line overwrites them. *)
Theorem corrupt_frame_then_valid (fs1 fs2 : list (list byte * list byte)) (c1 : byte) :
  forallb field_ok fs1 = true ->
  forallb field_ok fs2 = true ->
  sum_bytes (frame_body fs1 ++ [c1]) mod 256 <> 0 ->
  feed_out init_data_read
    (singles ((frame_body fs1 ++ [c1]) ++ with_checksum (frame_body fs2)))
  = repeat (Ret None) (length (frame_body fs1 ++ [c1]) + length (frame_body fs2))
    ++ [Ret (Some (commit_fields fs2 (commit_fields fs1 ∅)))].
Proof.
  intros Hok1 Hok2 Hbad. unfold init_data_read.
  destruct (feed_frame fs1 c1 0 ∅ Hok1) as [O1 F1].
  rewrite singles_app, feed_out_app, F1, O1.
  rewrite Z.add_0_l. destruct (Z.eqb_spec (sum_bytes (frame_body fs1 ++ [c1]) mod 256) 0);
    [contradiction|].
  unfold with_checksum at 1.
  rewrite (proj1 (feed_frame fs2 _ 0 _ Hok2)), Z.add_0_l.
  change (frame_body fs2 ++ [checksum_byte (frame_body fs2)])
    with (with_checksum (frame_body fs2)).
  rewrite checksum_byte_sum. cbn [Z.eqb].
  rewrite length_app. cbn [length]. rewrite repeat_app, app_assoc.
  f_equal. rewrite repeat_app. cbn [repeat]. reflexivity.
Qed.

Lemma corrupt_frame_then_valid_witness :
  feed_out init_data_read
    (singles ((frame_body [(B "PID", B "0x203")] ++ [x00])
              ++ with_checksum (frame_body [(B "V", B "12800")])))
  = repeat (Ret None)
      (length (frame_body [(B "PID", B "0x203")] ++ [x00])
       + length (frame_body [(B "V", B "12800")]))
    ++ [Ret (Some (commit_fields [(B "V", B "12800")]
                     (commit_fields [(B "PID", B "0x203")] ∅)))].
Proof.
  apply (corrupt_frame_then_valid [(B "PID", B "0x203")] [(B "V", B "12800")] x00);
    [reflexivity | reflexivity | vm_compute; discriminate].
Defined.

(** One call keeps what the buffers hold in each state, whatever is passed
    to it. *)
Lemma input_read_buffers_inv d x : buffers_inv d -> buffers_inv (fst (input_read d x)).
Proof.
  destruct d as [k v s st m]. unfold buffers_inv. cbn [state key value].
  intros (Hhex & Hwait & Hkey & Hck).
  unfold input_read. destruct (py_ord x) as [n|] eqn:Eord;
    [|cbn [fst state key value]; auto].
  assert (Eint : py_eq_int x hexmarker = false)
    by (destruct x as [bs|str|z|]; try reflexivity; discriminate Eord).
  rewrite Eint. cbn [andb state].
  destruct st; try congruence;
    cbn [set_bytes_sum set_state set_key set_value set_dict
         state key value bytes_sum dict].
  - (* WAIT_HEADER *)
    destruct (Hwait eq_refl) as [-> ->].
    destruct (n =? header1); [|destruct (n =? header2)];
      cbn; repeat split; intros; congruence.
  - (* IN_KEY *)
    rewrite (Hkey eq_refl).
    destruct (n =? delimiter).
    + destruct (String.eqb_spec k "Checksum") as [->|Hne];
        cbn; repeat split; intros; congruence.
    + destruct (py_decode_ascii x); cbn; repeat split; intros; congruence.
  - (* IN_VALUE *)
    destruct (n =? header1).
    + cbn; repeat split; intros; congruence.
    + destruct (py_decode_ascii x); cbn; repeat split; intros; congruence.
  - (* IN_CHECKSUM *)
    destruct (_ mod 256 =? 0); cbn; repeat split; intros; congruence.
Qed.

(** X4. Whatever sequence of values is fed to a fresh decoder, callers
    going on after every raise: the state is never HEX; in WAIT_HEADER both
    buffers are empty; in IN_KEY the value buffer is empty; in IN_CHECKSUM
    the key buffer holds [Checksum] and the value buffer is empty. *)
Theorem feed_buffers_inv (l : list pyobj) : buffers_inv (feed init_data_read l).
Proof.
  induction l as [|x l IH] using rev_ind.
  - unfold buffers_inv. cbn. repeat split; intros; congruence.
  - rewrite feed_snoc. apply input_read_buffers_inv, IH.
Qed.

(** A call returns a block only when it consumes the checksum byte:
    the decoder was in IN_CHECKSUM, the block is the mapping as it stood,
    which is kept, and the decoder is left in WAIT_HEADER with
    [bytes_sum = 0] and empty buffers. *)
Lemma input_read_returns_block (d d' : decoder) (x : pyobj)
    (blk : gmap string string) :
  input_read d x = (d', Ret (Some blk)) ->
  state d = IN_CHECKSUM /\ blk = dict d
  /\ d' = mkDecoder "" "" 0 WAIT_HEADER (dict d)
  /\ exists n, py_ord x = Some n /\ (bytes_sum d + n) mod 256 = 0.
Proof.
  destruct d as [k v s st m]. unfold input_read.
  destruct (py_ord x) as [n|] eqn:Eord; [|discriminate].
  assert (Eint : py_eq_int x hexmarker = false)
    by (destruct x as [bs|str|z|]; try reflexivity; discriminate Eord).
  rewrite Eint. cbn [andb state].
  destruct st;
    cbn [set_bytes_sum set_state set_key set_value set_dict
         state key value bytes_sum dict]; intros H.
  - destruct (n =? header2); discriminate H.
  - destruct (n =? header1); [|destruct (n =? header2)]; discriminate H.
  - destruct (n =? delimiter);
      [destruct (String.eqb k "Checksum") | destruct (py_decode_ascii x)];
      discriminate H.
  - destruct (n =? header1); [|destruct (py_decode_ascii x)]; discriminate H.
  - destruct (Z.eqb_spec ((s + n) mod 256) 0) as [Hz|Hz]; [|discriminate H].
    injection H as <- <-. repeat split. exists n. split; [reflexivity | exact Hz].
Qed.

(** X5. A call returns a block only when it consumes the checksum byte:
    the decoder was in IN_CHECKSUM, the block is the mapping as it stood,
    which is kept, and the decoder is left in WAIT_HEADER with
    [bytes_sum = 0] and empty buffers. *)
Theorem input_read_block_only_from_checksum (d d' : decoder) (x : pyobj)
    (blk : gmap string string) :
  input_read d x = (d', Ret (Some blk)) ->
  state d = IN_CHECKSUM /\ blk = dict d
  /\ d' = mkDecoder "" "" 0 WAIT_HEADER (dict d)
  /\ exists n, py_ord x = Some n /\ (bytes_sum d + n) mod 256 = 0.
Proof.
  destruct d as [k v s st m]. unfold input_read.
  destruct (py_ord x) as [n|] eqn:Eord; [|discriminate].
  assert (Eint : py_eq_int x hexmarker = false)
    by (destruct x as [bs|str|z|]; try reflexivity; discriminate Eord).
  rewrite Eint. cbn [andb state].
  destruct st;
    cbn [set_bytes_sum set_state set_key set_value set_dict
         state key value bytes_sum dict]; intros H.
  - destruct (n =? header2); discriminate H.
  - destruct (n =? header1); [|destruct (n =? header2)]; discriminate H.
  - destruct (n =? delimiter);
      [destruct (String.eqb k "Checksum") | destruct (py_decode_ascii x)];
      discriminate H.
  - destruct (n =? header1); [|destruct (py_decode_ascii x)]; discriminate H.
  - destruct (Z.eqb_spec ((s + n) mod 256) 0) as [Hz|Hz]; [|discriminate H].
    injection H as <- <-. repeat split. exists n. split; [reflexivity | exact Hz].
Qed.

Lemma input_read_block_only_from_checksum_witness :
  IN_CHECKSUM = IN_CHECKSUM
  /\ ({[ "PID" := "0x203" ]} : gmap string string) = {[ "PID" := "0x203" ]}
  /\ mkDecoder "" "" 0 WAIT_HEADER {[ "PID" := "0x203" ]}
     = mkDecoder "" "" 0 WAIT_HEADER {[ "PID" := "0x203" ]}
  /\ exists n, py_ord (PyBytes [x38]) = Some n /\ (200 + n) mod 256 = 0.
Proof.
  exact (input_read_block_only_from_checksum
           (mkDecoder "Checksum" "" 200 IN_CHECKSUM {[ "PID" := "0x203" ]})
           (mkDecoder "" "" 0 WAIT_HEADER {[ "PID" := "0x203" ]})
           (PyBytes [x38]) {[ "PID" := "0x203" ]} eq_refl).
Defined.

(** X6. When a call raises, it raises [InputReadException] and leaves the
    state, both buffers and the mapping as they were; [bytes_sum] is either
    unchanged (the value passed has no [ord]) or has grown by the byte that
    then failed to decode. *)
Theorem input_read_raise_keeps (d d' : decoder) (x : pyobj) (e : exn) :
  input_read d x = (d', Raise e) ->
  e = InputReadException
  /\ state d' = state d /\ key d' = key d /\ value d' = value d /\ dict d' = dict d
  /\ (py_ord x = None /\ bytes_sum d' = bytes_sum d
      \/ exists n, py_ord x = Some n /\ py_decode_ascii x = None
                   /\ (state d = IN_KEY \/ state d = IN_VALUE)
                   /\ bytes_sum d' = bytes_sum d + n).
Proof.
  destruct d as [k v s st m]. unfold input_read.
  destruct (py_ord x) as [n|] eqn:Eord.
  2: { intros H. injection H as <- <-. repeat split. left. split; reflexivity. }
  assert (Eint : py_eq_int x hexmarker = false)
    by (destruct x as [bs|str|z|]; try reflexivity; discriminate Eord).
  rewrite Eint. cbn [andb state].
  destruct st;
    cbn [set_bytes_sum set_state set_key set_value set_dict
         state key value bytes_sum dict]; intros H.
  - destruct (n =? header2); discriminate H.
  - destruct (n =? header1); [|destruct (n =? header2)]; discriminate H.
  - destruct (n =? delimiter); [destruct (String.eqb k "Checksum"); discriminate H|].
    destruct (py_decode_ascii x) eqn:Ed; [discriminate H|].
    injection H as <- <-. repeat split. right. exists n. cbn. auto.
  - destruct (n =? header1); [discriminate H|].
    destruct (py_decode_ascii x) eqn:Ed; [discriminate H|].
    injection H as <- <-. repeat split. right. exists n. cbn. auto.
  - destruct (_ mod 256 =? 0); discriminate H.
Qed.

Lemma input_read_raise_keeps_witness :
  InputReadException = InputReadException
  /\ state (mkDecoder "PID" "0x" 128 IN_VALUE ∅) = state (mkDecoder "PID" "0x" 0 IN_VALUE ∅)
  /\ key (mkDecoder "PID" "0x" 128 IN_VALUE ∅) = key (mkDecoder "PID" "0x" 0 IN_VALUE ∅)
  /\ value (mkDecoder "PID" "0x" 128 IN_VALUE ∅) = value (mkDecoder "PID" "0x" 0 IN_VALUE ∅)
  /\ dict (mkDecoder "PID" "0x" 128 IN_VALUE ∅) = dict (mkDecoder "PID" "0x" 0 IN_VALUE ∅)
  /\ (py_ord (PyBytes [x80]) = None
      /\ bytes_sum (mkDecoder "PID" "0x" 128 IN_VALUE ∅)
         = bytes_sum (mkDecoder "PID" "0x" 0 IN_VALUE ∅)
      \/ exists n, py_ord (PyBytes [x80]) = Some n
                   /\ py_decode_ascii (PyBytes [x80]) = None
                   /\ (state (mkDecoder "PID" "0x" 0 IN_VALUE ∅) = IN_KEY
                       \/ state (mkDecoder "PID" "0x" 0 IN_VALUE ∅) = IN_VALUE)
                   /\ bytes_sum (mkDecoder "PID" "0x" 128 IN_VALUE ∅)
                      = bytes_sum (mkDecoder "PID" "0x" 0 IN_VALUE ∅) + n).
Proof.
  exact (input_read_raise_keeps (mkDecoder "PID" "0x" 0 IN_VALUE ∅)
           (mkDecoder "PID" "0x" 128 IN_VALUE ∅) (PyBytes [x80])
           InputReadException eq_refl).
Defined.

Lemma input_read_keeps_keys d x k :
  is_Some (dict d !! k) -> is_Some (dict (fst (input_read d x)) !! k).
Proof.
  destruct d as [kk v s st m]. cbn [dict]. intros Hk. unfold input_read.
  destruct (py_ord x) as [n|]; [|exact Hk].
  destruct (py_eq_int x hexmarker && _); cbn [state set_state];
    try (destruct (n =? header2); exact Hk).
  destruct st;
    cbn [set_bytes_sum set_state set_key set_value set_dict
         state key value bytes_sum dict].
  - destruct (n =? header2); exact Hk.
  - destruct (n =? header1); [|destruct (n =? header2)]; exact Hk.
  - destruct (n =? delimiter);
      [destruct (String.eqb kk "Checksum") | destruct (py_decode_ascii x)]; exact Hk.
  - destruct (n =? header1); [|destruct (py_decode_ascii x); exact Hk].
    cbn [fst dict set_value set_key set_dict set_state set_bytes_sum
         key value state bytes_sum].
    rewrite lookup_insert. destruct (decide (kk = k)); [eauto | exact Hk].
  - destruct (_ mod 256 =? 0); exact Hk.
Qed.

(** X7. No call ever removes a key from the mapping: a key committed once
    is still there after any further sequence of inputs, so every later
    block carries it. *)
Theorem feed_keeps_keys (l : list pyobj) (d : decoder) (k : string) :
  is_Some (dict d !! k) -> is_Some (dict (feed d l) !! k).
Proof.
  revert d. induction l as [|x l IH]; intros d Hk; [exact Hk|].
  change (feed d (x :: l)) with (feed (fst (input_read d x)) l).
  apply IH, input_read_keeps_keys, Hk.
Qed.

Lemma feed_keeps_keys_witness :
  is_Some (dict (feed (mkDecoder "" "" 0 WAIT_HEADER {[ "PID" := "0x203" ]})
                   (singles frame_v)) !! "PID").
Proof.
  apply (feed_keeps_keys (singles frame_v)
           (mkDecoder "" "" 0 WAIT_HEADER {[ "PID" := "0x203" ]}) "PID").
  vm_compute. eauto.
Defined.

(** Bytes other than LF, fed in WAIT_HEADER, are only added to the sum. *)
Lemma runs_quiet_noise g : forall k v s m,
  forallb (fun b => negb (nbyte_of b =? header2)) g = true ->
  runs_quiet (mkDecoder k v s WAIT_HEADER m) g
    (mkDecoder k v (s + sum_bytes g) WAIT_HEADER m).
Proof.
  induction g as [|b g IH]; intros k v s m Hg.
  - cbn. rewrite Z.add_0_r. apply runs_quiet_nil.
  - cbn [forallb] in Hg. apply andb_prop in Hg as [Hb Hg].
    apply negb_true_iff in Hb.
    change (b :: g) with ([b] ++ g).
    eapply runs_quiet_app.
    + apply runs_quiet_one. unfold input_read. cbn [py_ord py_eq_int andb state].
      cbn [bytes_sum set_bytes_sum key value dict state]. rewrite Hb.
      destruct (nbyte_of b =? header1); reflexivity.
    + replace (s + sum_bytes ([b] ++ g)) with (s + nbyte_of b + sum_bytes g)
        by (change ([b] ++ g) with (b :: g); rewrite sum_bytes_cons; lia).
      apply IH, Hg.
Qed.

(** X16. Noise ahead of a frame is counted in its checksum: when bytes
    that hold no LF (of any value, ASCII or not) reach a fresh decoder
    before a valid frame, no call raises, and the frame's block is returned
    exactly when the noise itself sums to 0 mod 256; otherwise the frame is
    dropped. *)
Theorem noise_then_frame (g : list byte) (fields : list (list byte * list byte)) :
  forallb (fun b => negb (nbyte_of b =? header2)) g = true ->
  forallb field_ok fields = true ->
  feed_out init_data_read (singles (g ++ with_checksum (frame_body fields)))
  = repeat (Ret None) (length g + length (frame_body fields))
    ++ [Ret (if sum_bytes g mod 256 =? 0
             then Some (commit_fields fields ∅) else None)].
Proof.
  intros Hg Hok. unfold init_data_read.
  destruct (runs_quiet_noise g "" "" 0 ∅ Hg) as [F O].
  rewrite singles_app, feed_out_app, F, O.
  unfold with_checksum at 1.
  rewrite (proj1 (feed_frame fields _ (0 + sum_bytes g) ∅ Hok)).
  change (frame_body fields ++ [checksum_byte (frame_body fields)])
    with (with_checksum (frame_body fields)).
  rewrite Z.add_0_l, Z.add_mod, checksum_byte_sum, Z.add_0_r, Z.mod_mod by lia.
  rewrite repeat_app, <- app_assoc. reflexivity.
Qed.

Lemma noise_then_frame_witness :
  feed_out init_data_read
    (singles ([x80; x3a] ++ with_checksum (frame_body [(B "PID", B "0x203")])))
  = repeat (Ret None) (length [x80; x3a] + length (frame_body [(B "PID", B "0x203")]))
    ++ [Ret (if sum_bytes [x80; x3a] mod 256 =? 0
             then Some (commit_fields [(B "PID", B "0x203")] ∅) else None)].
Proof.
  exact (noise_then_frame [x80; x3a] [(B "PID", B "0x203")] eq_refl eq_refl).
Defined.

(** * Further properties of the serial side *)

Section ReadingFacts.
Context {C : Collaborators}.

(** A read that yields one byte other than NUL: that byte is fed. *)
Lemma get_serial_packet_byte (w : world) c s b :
  _com w = Some c -> ser c = Some s ->
  rx w (rx_pos w) = RxBytes [b] -> Byte.eqb b x00 = false ->
  get_serial_packet w
  = (set_this (fst (input_read (this w) (PyBytes [b]))) (set_rx_pos (S (rx_pos w)) w),
     snd (input_read (this w) (PyBytes [b]))).
Proof.
  intros Hcom Hser Hrx Hb.
  unfold get_serial_packet, bind, ser_read. rewrite Hcom, Hser, Hrx.
  cbn [is_nul]. rewrite Hb. unfold do_input_read. cbn [this set_rx_pos].
  destruct (input_read (this w) (PyBytes [b])). reflexivity.
Qed.

(** A read that times out yields [b''], which has no [ord]. *)
Lemma get_serial_packet_empty (w : world) c s :
  _com w = Some c -> ser c = Some s ->
  rx w (rx_pos w) = RxBytes [] ->
  get_serial_packet w = (set_rx_pos (S (rx_pos w)) w, Raise InputReadException).
Proof.
  intros Hcom Hser Hrx.
  unfold get_serial_packet, bind, ser_read. rewrite Hcom, Hser, Hrx.
  reflexivity.
Qed.

(** X8. On a ready object, a first read that times out (pyserial returns
    [b'']) makes [read_data_single] raise [InputReadException] at once,
    whatever the frame timeout: the clock was read twice, one read was
    made, the decoder is untouched and [is_timeout] is not reached. *)
Theorem read_data_single_empty_read (k : klass) (fuel : nat) (limit : Q)
    (w : world) (c : SerialConnection) (s : Serial) :
  is_ready k w = true ->
  _com w = Some c -> ser c = Some s ->
  rx w (rx_pos w) = RxBytes [] ->
  read_data_single k (S fuel) limit w
  = (set_rx_pos (S (rx_pos w)) (set_ticks (S (S (ticks w))) w),
     Raise InputReadException).
Proof.
  intros Hready Hcom Hser Hrx.
  unfold read_data_single. unfold bind at 1, time_time at 1. cbv beta iota.
  unfold bind at 1, gets at 1. cbv beta iota.
  rewrite is_ready_set_ticks, Hready.
  cbn [read_data_single_loop]. unfold bind at 1, time_time at 1. cbv beta iota.
  unfold bind at 1.
  rewrite (get_serial_packet_empty _ c s); [reflexivity | exact Hcom | exact Hser | exact Hrx].
Qed.

Lemma get_serial_packet_returns_block (w w' : world) blk :
  get_serial_packet w = (w', Ret (Some blk)) ->
  this w' = mkDecoder "" "" 0 WAIT_HEADER blk.
Proof.
  assert (Hin : forall x w0, do_input_read x w0 = (w', Ret (Some blk)) ->
                             this w' = mkDecoder "" "" 0 WAIT_HEADER blk).
  { intros x w0 H. unfold do_input_read in H.
    destruct (input_read (this w0) x) as [d o] eqn:E. injection H as <- ->.
    apply input_read_returns_block in E as (_ & -> & -> & _). reflexivity. }
  unfold get_serial_packet, bind. intros H.
  destruct (ser_read w) as [w1 [bs|e|]]; try discriminate H.
  destruct (is_nul bs); [|exact (Hin _ _ H)].
  destruct (ser_read w1) as [w2 [bs2|e|]]; try discriminate H.
  exact (Hin _ _ H).
Qed.

Lemma read_data_single_loop_returns fuel : forall now limit w w' r,
  read_data_single_loop fuel now limit w = (w', Ret r) ->
  exists blk, r = Some blk /\ this w' = mkDecoder "" "" 0 WAIT_HEADER blk.
Proof.
  induction fuel as [|fuel IH]; intros now limit w w' r H;
    cbn [read_data_single_loop] in H; [discriminate H|].
  unfold bind at 1, time_time at 1 in H. cbv beta iota in H.
  unfold bind at 1 in H.
  destruct (get_serial_packet _) as [w1 [[blk|]|e|]] eqn:E; try discriminate H.
  - injection H as <- <-. exists blk. split; [reflexivity|].
    exact (get_serial_packet_returns_block _ _ _ E).
  - unfold bind at 1, lift at 1 in H.
    destruct (is_timeout _ limit); try discriminate H.
    exact (IH _ _ _ _ _ H).
Qed.

(** X9. What [read_data_single] returns tells whether it read: it returns
    [None] only when the object is not ready, without reading; when it
    returns a block the object was ready, the block is the decoder's
    mapping and the decoder is at rest (WAIT_HEADER, empty buffers,
    [bytes_sum = 0]). In neither case was the callback invoked. *)
Theorem read_data_single_result (k : klass) (fuel : nat) (limit : Q)
    (w w' : world) (r : option (gmap string string)) :
  read_data_single k fuel limit w = (w', Ret r) ->
  calls w' = calls w
  /\ match r with
     | None => is_ready k w = false /\ w' = set_ticks (S (ticks w)) w
     | Some blk => is_ready k w = true
                   /\ this w' = mkDecoder "" "" 0 WAIT_HEADER blk
     end.
Proof.
  intros H. split; [exact (keeps_read_data_single calls (Hf:=calls_frame) k fuel limit _ _ _ H)|].
  unfold read_data_single in H. unfold bind at 1, time_time at 1 in H.
  cbv beta iota in H. unfold bind at 1, gets at 1 in H. cbv beta iota in H.
  rewrite is_ready_set_ticks in H.
  destruct (is_ready k w).
  - apply read_data_single_loop_returns in H as (blk & -> & Hd). split; [reflexivity | exact Hd].
  - injection H as <- <-. split; reflexivity.
Qed.

Lemma runs_quiet_cons_inv d b bs d1 :
  runs_quiet d (b :: bs) d1 ->
  exists d0, input_read d (PyBytes [b]) = (d0, Ret None) /\ runs_quiet d0 bs d1.
Proof.
  intros [F O]. unfold singles in *. cbn [map feed_out length repeat] in O.
  injection O as O1 O2.
  exists (fst (input_read d (PyBytes [b]))). split.
  - rewrite <- O1. apply surjective_pairing.
  - split; [exact F | exact O2].
Qed.

Lemma no_nul_cons b bs :
  no_nul (b :: bs) = true -> Byte.eqb b x00 = false /\ no_nul bs = true.
Proof.
  unfold no_nul. cbn [forallb]. intros H. apply andb_prop in H as [H1 H2].
  apply negb_true_iff in H1. auto.
Qed.

Lemma delivers_cons w b bs d :
  delivers w (b :: bs) ->
  rx w (rx_pos w) = RxBytes [b]
  /\ delivers (set_this d (set_rx_pos (S (rx_pos w)) (set_ticks (S (ticks w)) w))) bs.
Proof.
  intros H. split.
  - rewrite <- (Nat.add_0_r (rx_pos w)). apply H. reflexivity.
  - intros i x Hx. cbn [rx rx_pos set_this set_rx_pos set_ticks].
    replace (S (rx_pos w) + i)%nat with (rx_pos w + S i)%nat by lia.
    apply H. exact Hx.
Qed.

(** As long as the port delivers bytes other than NUL and the clock stays
    within the limit, the reading loop feeds the decoder what the port
    delivers, in order, and returns the block of the first call that
    returns one. *)
Lemma read_loop_follows_feed bs : forall w fuel now limit c s b blk d1,
  _com w = Some c -> ser c = Some s ->
  delivers w (bs ++ [b]) -> no_nul (bs ++ [b]) = true ->
  in_time w now limit ->
  runs_quiet (this w) bs d1 ->
  snd (input_read d1 (PyBytes [b])) = Ret (Some blk) ->
  (length bs < fuel)%nat ->
  exists w',
    read_data_single_loop fuel now limit w = (w', Ret (Some blk))
    /\ this w' = fst (input_read d1 (PyBytes [b]))
    /\ rx_pos w' = (rx_pos w + length bs + 1)%nat
    /\ _com w' = _com w /\ calls w' = calls w.
Proof.
  induction bs as [|b0 bs IH];
    intros w fuel now limit c s b blk d1 Hcom Hser Hdel Hnn Htime Hq Hblk Hfuel;
    (destruct fuel as [|fuel]; [cbn in Hfuel; lia|]);
    cbn [read_data_single_loop];
    unfold bind at 1, time_time at 1; cbv beta iota; unfold bind at 1.
  - destruct Hq as [Hq _]. cbn in Hq. subst d1.
    cbn [app] in Hdel, Hnn.
    apply no_nul_cons in Hnn as [Hb _].
    apply (delivers_cons w b [] (this w)) in Hdel as [Hrx _].
    rewrite (get_serial_packet_byte _ c s b); [| exact Hcom | exact Hser | exact Hrx | exact Hb].
    cbn [this set_ticks]. rewrite Hblk.
    eexists. split; [reflexivity|]. cbn. repeat split. lia.
  - apply runs_quiet_cons_inv in Hq as (d0 & Hstep & Hq).
    cbn [app] in Hdel, Hnn.
    apply no_nul_cons in Hnn as [Hb Hnn].
    apply (delivers_cons w b0 (bs ++ [b]) d0) in Hdel as [Hrx Hdel].
    rewrite (get_serial_packet_byte _ c s b0); [| exact Hcom | exact Hser | exact Hrx | exact Hb].
    cbn [this set_ticks]. rewrite Hstep. cbn [fst snd].
    unfold bind at 1, lift at 1. unfold is_timeout. rewrite (Htime (ticks w)).
    cbv beta iota.
    destruct (IH (set_this d0 (set_rx_pos (S (rx_pos w)) (set_ticks (S (ticks w)) w)))
                fuel now limit c s b blk d1 Hcom Hser Hdel Hnn Htime Hq Hblk)
      as (w' & Hrun & Hthis & Hpos & Hc & Hcalls); [cbn in Hfuel; lia|].
    exists w'. split; [exact Hrun|]. cbn in Hpos, Hc, Hcalls.
    repeat split; try assumption. cbn [length]. lia.
Qed.

(** X10. A ready object whose decoder is at rest with [bytes_sum = 0], on
    a port that delivers a valid text frame holding no NUL byte, with the
    clock staying within the frame timeout: [read_data_single] returns the
    mapping with the lines of the frame committed, having made exactly one
    read per byte of the frame and no callback invocation. *)
Theorem read_data_single_returns_frame (k : klass) (fuel : nat) (limit : Q)
    (w : world) (c : SerialConnection) (s : Serial)
    (fields : list (list byte * list byte)) (m0 : gmap string string) :
  is_ready k w = true ->
  _com w = Some c -> ser c = Some s ->
  this w = mkDecoder "" "" 0 WAIT_HEADER m0 ->
  forallb field_ok fields = true ->
  no_nul (with_checksum (frame_body fields)) = true ->
  delivers w (with_checksum (frame_body fields)) ->
  in_time w (clock w (ticks w)) limit ->
  (length (frame_body fields) < fuel)%nat ->
  exists w',
    read_data_single k fuel limit w = (w', Ret (Some (commit_fields fields m0)))
    /\ this w' = mkDecoder "" "" 0 WAIT_HEADER (commit_fields fields m0)
    /\ rx_pos w' = (rx_pos w + length (with_checksum (frame_body fields)))%nat
    /\ calls w' = calls w.
Proof.
  intros Hready Hcom Hser Hthis Hok Hnn Hdel Htime Hfuel.
  unfold read_data_single. unfold bind at 1, time_time at 1. cbv beta iota.
  unfold bind at 1, gets at 1. cbv beta iota.
  rewrite is_ready_set_ticks, Hready.
  destruct (runs_quiet_body fields 0 m0 Hok) as [F O].
  assert (Hlast : input_read
            (mkDecoder "Checksum" "" (0 + sum_bytes (frame_body fields)) IN_CHECKSUM
               (commit_fields fields m0))
            (PyBytes [checksum_byte (frame_body fields)])
          = (mkDecoder "" "" 0 WAIT_HEADER (commit_fields fields m0),
             Ret (Some (commit_fields fields m0)))).
  { unfold input_read. cbn [py_ord py_eq_int andb state set_bytes_sum set_key
      set_value set_state bytes_sum dict key value].
    rewrite Z.add_0_l, <- sum_bytes_snoc.
    change (frame_body fields ++ [checksum_byte (frame_body fields)])
      with (with_checksum (frame_body fields)).
    rewrite checksum_byte_sum. reflexivity. }
  assert (Hq : runs_quiet (this (set_ticks (S (ticks w)) w)) (frame_body fields)
            (mkDecoder "Checksum" "" (0 + sum_bytes (frame_body fields)) IN_CHECKSUM
               (commit_fields fields m0))).
  { cbn [this set_ticks]. rewrite Hthis. split; [exact F | exact O]. }
  assert (Hblk : snd (input_read
            (mkDecoder "Checksum" "" (0 + sum_bytes (frame_body fields)) IN_CHECKSUM
               (commit_fields fields m0))
            (PyBytes [checksum_byte (frame_body fields)]))
          = Ret (Some (commit_fields fields m0))).
  { rewrite Hlast. reflexivity. }
  destruct (read_loop_follows_feed (frame_body fields)
              (set_ticks (S (ticks w)) w) fuel (clock w (ticks w)) limit c s
              (checksum_byte (frame_body fields)) (commit_fields fields m0)
              (mkDecoder "Checksum" "" (0 + sum_bytes (frame_body fields)) IN_CHECKSUM
                 (commit_fields fields m0))
              Hcom Hser Hdel Hnn Htime Hq Hblk Hfuel)
    as (w' & Hrun & Hd & Hpos & _ & Hcalls).
  exists w'. split; [exact Hrun|]. rewrite Hlast in Hd.
  split; [exact Hd|]. split; [|exact Hcalls].
  unfold with_checksum. rewrite length_app. cbn in Hpos |- *. lia.
Qed.

(** X11. The NUL rule swallows a checksum byte: with the decoder in
    IN_CHECKSUM after a frame body that sums to 0 mod 256, the checksum
    byte on the wire is 0x00 and [input_read] on it would return the block;
    [get_serial_packet] skips it, takes the byte [b] that follows as the
    checksum byte, and for any [b] other than NUL the block is dropped. *)
Theorem get_serial_packet_nul_checksum (w : world) (c : SerialConnection)
    (s : Serial) (b : byte) :
  _com w = Some c -> ser c = Some s ->
  state (this w) = IN_CHECKSUM ->
  bytes_sum (this w) mod 256 = 0 ->
  rx w (rx_pos w) = RxBytes [x00] ->
  rx w (S (rx_pos w)) = RxBytes [b] ->
  Byte.eqb b x00 = false ->
  snd (input_read (this w) (PyBytes [x00])) = Ret (Some (dict (this w)))
  /\ get_serial_packet w
     = (set_this (mkDecoder "" "" 0 WAIT_HEADER (dict (this w)))
          (set_rx_pos (S (S (rx_pos w))) w),
        Ret None).
Proof.
  intros Hcom Hser Hst Hsum Hrx0 Hrx1 Hb.
  assert (Hstep : forall x, input_read (this w) (PyBytes [x])
            = (mkDecoder "" "" 0 WAIT_HEADER (dict (this w)),
               Ret (if (bytes_sum (this w) + nbyte_of x) mod 256 =? 0
                    then Some (dict (this w)) else None))).
  { intros x. unfold input_read. cbn [py_ord py_eq_int andb]. rewrite Hst. cbn.
    destruct (_ mod 256 =? 0); reflexivity. }
  split.
  - rewrite Hstep. cbn [snd]. change (nbyte_of x00) with 0.
    rewrite Z.add_0_r, Hsum. reflexivity.
  - unfold get_serial_packet, bind, ser_read. rewrite Hcom, Hser, Hrx0.
    change (is_nul [x00]) with true. cbv beta iota.
    cbn [_com rx rx_pos set_rx_pos]. rewrite Hcom, Hser, Hrx1.
    unfold do_input_read. cbn [this set_rx_pos]. rewrite Hstep.
    assert (Hnz : (bytes_sum (this w) + nbyte_of b) mod 256 <> 0).
    { pose proof (nbyte_of_range b) as Hr.
      assert (nbyte_of b <> 0).
      { intros E. unfold nbyte_of in E.
        assert (Byte.to_N b = Byte.to_N x00) as E' by (cbn; lia).
        assert (Some b = Some x00) as Eb
          by (rewrite <- (Byte.of_to_N b), <- (Byte.of_to_N x00); f_equal; exact E').
        injection Eb as ->. discriminate Hb. }
      rewrite Z.add_mod, Hsum, Z.add_0_l, Z.mod_mod by lia.
      rewrite Z.mod_small; lia. }
    destruct (Z.eqb_spec ((bytes_sum (this w) + nbyte_of b) mod 256) 0);
      [contradiction | reflexivity].
Qed.

(** X12. The frame timeout is tested only after a byte was read and fed:
    on a ready object, when the first byte read (not NUL) completes no
    block and the clock then shows [limit] or more elapsed since entry,
    [read_data_single] raises [TimeoutException], and the decoder keeps
    the byte it was fed. *)
Theorem read_data_single_timeout_keeps_state (k : klass) (fuel : nat) (limit : Q)
    (w : world) (c : SerialConnection) (s : Serial) (b : byte) (d : decoder) :
  is_ready k w = true ->
  _com w = Some c -> ser c = Some s ->
  rx w (rx_pos w) = RxBytes [b] -> Byte.eqb b x00 = false ->
  input_read (this w) (PyBytes [b]) = (d, Ret None) ->
  (limit <= clock w (S (ticks w)) - clock w (ticks w))%Q ->
  read_data_single k (S fuel) limit w
  = (set_this d (set_rx_pos (S (rx_pos w)) (set_ticks (S (S (ticks w))) w)),
     Raise TimeoutException).
Proof.
  intros Hready Hcom Hser Hrx Hb Hstep Hlate.
  unfold read_data_single. unfold bind at 1, time_time at 1. cbv beta iota.
  unfold bind at 1, gets at 1. cbv beta iota.
  rewrite is_ready_set_ticks, Hready.
  cbn [read_data_single_loop]. unfold bind at 1, time_time at 1. cbv beta iota.
  unfold bind at 1.
  rewrite (get_serial_packet_byte _ c s b); [| exact Hcom | exact Hser | exact Hrx | exact Hb].
  cbn [this set_ticks clock ticks]. rewrite Hstep. cbn [fst snd].
  unfold bind at 1, lift at 1. unfold is_timeout.
  apply Qle_bool_iff in Hlate. rewrite Hlate. reflexivity.
Qed.

End ReadingFacts.

Lemma read_data_single_empty_read_witness :
  read_data_single VedirectController 10 60 demo_world_idle
  = (set_rx_pos 1 (set_ticks 2 demo_world_idle), Raise InputReadException).
Proof.
  exact (read_data_single_empty_read VedirectController 9 60 demo_world_idle
           (mkCom "/dev/ttyUSB1" (Some 5%Q) (Some (mkSerial (Some 5%Q) true)))
           (mkSerial (Some 5%Q) true) eq_refl eq_refl eq_refl eq_refl).
Defined.

Lemma read_data_single_result_witness :
  calls (fst (read_data_single VedirectController 30 60 demo_world)) = calls demo_world
  /\ is_ready VedirectController demo_world = true
  /\ this (fst (read_data_single VedirectController 30 60 demo_world))
     = mkDecoder "" "" 0 WAIT_HEADER {[ "PID" := "0x203" ]}.
Proof.
  apply (read_data_single_result VedirectController 30 60 demo_world
           (fst (read_data_single VedirectController 30 60 demo_world))
           (Some {[ "PID" := "0x203" ]})).
  vm_compute. reflexivity.
Defined.

Lemma read_data_single_returns_frame_witness :
  exists w',
    read_data_single VedirectController 30 60 demo_world
    = (w', Ret (Some (commit_fields [(B "PID", B "0x203")] ∅)))
    /\ this w' = mkDecoder "" "" 0 WAIT_HEADER (commit_fields [(B "PID", B "0x203")] ∅)
    /\ rx_pos w'
       = (rx_pos demo_world + length (with_checksum (frame_body [(B "PID", B "0x203")])))%nat
    /\ calls w' = calls demo_world.
Proof.
  apply (read_data_single_returns_frame VedirectController 30 60 demo_world
           (mkCom "/dev/ttyUSB1" (Some 5%Q) (Some (mkSerial (Some 5%Q) true)))
           (mkSerial (Some 5%Q) true) [(B "PID", B "0x203")] ∅);
    try reflexivity.
  - intros i b Hb.
    change (rx demo_world (rx_pos demo_world + i))
      with (rx_of (with_checksum (frame_body [(B "PID", B "0x203")])) i).
    unfold rx_of. rewrite Hb. reflexivity.
  - intros n. reflexivity.
  - vm_compute. lia.
Defined.

Lemma get_serial_packet_nul_checksum_witness :
  snd (input_read (this demo_world_nul_checksum) (PyBytes [x00]))
    = Ret (Some (dict (this demo_world_nul_checksum)))
  /\ get_serial_packet demo_world_nul_checksum
     = (set_this (mkDecoder "" "" 0 WAIT_HEADER (dict (this demo_world_nul_checksum)))
          (set_rx_pos 2 demo_world_nul_checksum),
        Ret None).
Proof.
  exact (get_serial_packet_nul_checksum demo_world_nul_checksum
           (mkCom "/dev/ttyUSB1" (Some 5%Q) (Some (mkSerial (Some 5%Q) true)))
           (mkSerial (Some 5%Q) true) x0d
           eq_refl eq_refl eq_refl eq_refl eq_refl eq_refl eq_refl).
Defined.

Lemma read_data_single_timeout_keeps_state_witness :
  read_data_single VedirectController 10 0 demo_world
  = (set_this (mkDecoder "" "" 13 WAIT_HEADER ∅)
       (set_rx_pos 1 (set_ticks 2 demo_world)),
     Raise TimeoutException).
Proof.
  apply (read_data_single_timeout_keeps_state VedirectController 9 0 demo_world
           (mkCom "/dev/ttyUSB1" (Some 5%Q) (Some (mkSerial (Some 5%Q) true)))
           (mkSerial (Some 5%Q) true) x0d (mkDecoder "" "" 13 WAIT_HEADER ∅));
    try reflexivity.
  vm_compute. discriminate.
Defined.

(** * Further properties of port recovery *)

Section RecoveryFacts.
Context {C : Collaborators}.

(** X13. [read_data_to_test] never raises: whatever the read it makes
    raises is swallowed and an empty mapping is returned instead. It
    returns [None] exactly when the controller is not ready, and then
    touches nothing. *)
Theorem read_data_to_test_never_raises (fuel : nat) (w w' : world)
    (o : outcome (option (gmap string string))) :
  read_data_to_test fuel w = (w', o) ->
  (forall e, o <> Raise e)
  /\ (o = Ret None <-> is_ready VedirectController w = false)
  /\ (is_ready VedirectController w = false -> w' = w).
Proof.
  unfold read_data_to_test. unfold bind at 1, gets at 1. cbv beta iota.
  destruct (is_ready VedirectController w).
  - unfold try_except, bind.
    destruct (read_data_single VedirectController fuel 1 w) as [w1 [[d|]|e|]];
      unfold ret; intros H; injection H as <- <-;
      (split; [intros e0 He; discriminate He|]);
      (split; [split; intros He; discriminate He | intros He; discriminate He]).
  - unfold ret. intros H. injection H as <- <-.
    split; [intros e He; discriminate He|]. split; [split; reflexivity | reflexivity].
Qed.

Lemma wait_or_search_loop_never_false fuel sweeps : forall now limit w w' b,
  wait_or_search_loop sweeps fuel now limit w = (w', Ret b) -> b = true.
Proof.
  induction sweeps as [|sweeps IH]; intros now limit w w' b H;
    cbn [wait_or_search_loop] in H; [discriminate H|].
  unfold bind at 1, time_time at 1 in H. cbv beta iota in H.
  unfold bind at 1 in H.
  destruct (search_serial_port fuel _) as [w1 [[|]|e|]]; try discriminate H.
  - injection H as _ <-. reflexivity.
  - destruct (negb (Qle_bool _ limit)); [discriminate H|].
    unfold bind at 1, time_sleep, ret at 1 in H. exact (IH _ _ _ _ _ H).
Qed.

(** [wait_or_search_serial_connection] never returns [False]: it
    returns [True], raises, or goes on searching. Without a connection
    object or without serial tests it raises [VedirectException] at once,
    touching nothing. *)
Lemma wait_or_search_outcome (fuel : nat) (limit : Q) (w w' : world)
    (o : outcome bool) :
  wait_or_search_serial_connection fuel limit w = (w', o) ->
  (forall b, o = Ret b -> b = true)
  /\ (is_ready_to_search_ports w = false -> o = Raise VedirectException /\ w' = w).
Proof.
  unfold wait_or_search_serial_connection. unfold bind at 1, gets at 1.
  cbv beta iota.
  destruct (is_ready_to_search_ports w).
  - unfold bind at 1, time_time at 1. cbv beta iota. intros H.
    split; [|intros He; discriminate He].
    intros b ->. exact (wait_or_search_loop_never_false _ _ _ _ _ _ _ H).
  - unfold raise. intros H. injection H as <- <-.
    split; [intros b Hb; discriminate Hb | intros _; split; reflexivity].
Qed.

(** X14. [wait_or_search_serial_connection] never returns [False]: it
    returns [True], raises, or goes on searching. Without a connection
    object or without serial tests it raises [VedirectException] at once,
    touching nothing. *)
Theorem wait_or_search_never_false (fuel : nat) (limit : Q) (w w' : world)
    (o : outcome bool) :
  wait_or_search_serial_connection fuel limit w = (w', o) ->
  (forall b, o = Ret b -> b = true)
  /\ (is_ready_to_search_ports w = false -> o = Raise VedirectException /\ w' = w).
Proof.
  unfold wait_or_search_serial_connection. unfold bind at 1, gets at 1.
  cbv beta iota.
  destruct (is_ready_to_search_ports w).
  - unfold bind at 1, time_time at 1. cbv beta iota. intros H.
    split; [|intros He; discriminate He].
    intros b ->. exact (wait_or_search_loop_never_false _ _ _ _ _ _ _ H).
  - unfold raise. intros H. injection H as <- <-.
    split; [intros b Hb; discriminate Hb | intros _; split; reflexivity].
Qed.

(** X15. Port names that [is_serial_port] rejects are never connected to:
    when it rejects every candidate, [test_serial_ports] (ready to search)
    returns [False] and nothing has changed, neither the connection nor
    the decoder nor the position on the port. *)
Theorem test_serial_ports_skips_invalid (fuel : nat) (ports : list string)
    (w : world) :
  is_ready_to_search_ports w = true ->
  forallb (fun port => negb (is_serial_port port)) ports = true ->
  test_serial_ports fuel ports w = (w, Ret false).
Proof.
  intros Hready Hbad.
  unfold test_serial_ports. unfold bind at 1, gets at 1. cbv beta iota.
  rewrite Hready.
  assert (Hloop : test_serial_ports_loop fuel ports w = (w, Ret false)).
  { induction ports as [|port rest IH]; [reflexivity|].
    cbn [forallb] in Hbad. apply andb_prop in Hbad as [Hp Hrest].
    apply negb_true_iff in Hp. cbn [test_serial_ports_loop]. rewrite Hp.
    exact (IH Hrest). }
  destruct ports; [reflexivity | exact Hloop].
Qed.

(** X17. For the controller, [max_loops] of 0 or less means one
    iteration: ready at entry, once a first byte (not NUL) was read and
    fed without completing a block and within the frame timeout,
    [read_data_callback] returns [True]; one read was made and the
    callback was not invoked. (The base class, which also asks for
    [0 < max_loops], goes on reading instead.) *)
Theorem controller_callback_max_loops_nonpositive (fuel : nat) (limit climit : Q)
    (m : Z) (w : world) (c : SerialConnection) (s : Serial) (b : byte) (d : decoder) :
  m <= 0 ->
  is_ready VedirectController w = true ->
  _com w = Some c -> ser c = Some s ->
  rx w (rx_pos w) = RxBytes [b] -> Byte.eqb b x00 = false ->
  input_read (this w) (PyBytes [b]) = (d, Ret None) ->
  Qle_bool limit (clock w (S (ticks w)) - clock w (ticks w)) = false ->
  VedirectController_read_data_callback (S fuel) limit climit (Some m) w
  = (set_this d (set_rx_pos (S (rx_pos w)) (set_ticks (S (S (ticks w))) w)),
     Ret (Some true)).
Proof.
  intros Hm Hready Hcom Hser Hrx Hb Hstep Htime.
  unfold VedirectController_read_data_callback.
  unfold bind at 1, time_time at 1. cbv beta iota.
  unfold bind at 1, gets at 1. cbv beta iota.
  rewrite is_ready_set_ticks, Hready.
  cbn [VedirectController_read_data_callback_loop].
  unfold bind at 1, time_time at 1. cbv beta iota.
  unfold bind at 1. unfold try_except at 1. unfold bind at 1.
  rewrite (get_serial_packet_byte _ c s b); [| exact Hcom | exact Hser | exact Hrx | exact Hb].
  cbn [this set_ticks clock ticks]. rewrite Hstep. cbn [fst snd].
  unfold ret at 1. cbv beta iota.
  unfold bind at 1, ret at 1. cbv beta iota. cbn [fst snd].
  unfold bind at 1, lift at 1. unfold is_timeout. rewrite Htime. cbv beta iota.
  destruct (Z.leb_spec m 0) as [_|Hlt]; [reflexivity | lia].
Qed.

End RecoveryFacts.

(** On an idle line the probe read raises, and [read_data_to_test] returns
    an empty mapping. *)
Lemma read_data_to_test_never_raises_witness :
  (forall e, snd (read_data_to_test 10 demo_world_idle) <> Raise e)
  /\ (snd (read_data_to_test 10 demo_world_idle) = Ret None
      <-> is_ready VedirectController demo_world_idle = false)
  /\ (is_ready VedirectController demo_world_idle = false
      -> fst (read_data_to_test 10 demo_world_idle) = demo_world_idle).
Proof.
  apply (read_data_to_test_never_raises 10 demo_world_idle).
  apply surjective_pairing.
Defined.

Example read_data_to_test_idle :
  snd (read_data_to_test 10 demo_world_idle) = Ret (Some ∅).
Proof. vm_compute. reflexivity. Qed.

Lemma wait_or_search_never_false_witness :
  (forall b, snd (wait_or_search_serial_connection 60 30 demo_world_lost) = Ret b -> b = true)
  /\ (is_ready_to_search_ports demo_world_lost = false ->
      snd (wait_or_search_serial_connection 60 30 demo_world_lost) = Raise VedirectException
      /\ fst (wait_or_search_serial_connection 60 30 demo_world_lost) = demo_world_lost).
Proof.
  apply (wait_or_search_never_false 60 30 demo_world_lost).
  apply surjective_pairing.
Defined.

Lemma test_serial_ports_skips_invalid_witness :
  test_serial_ports 10 ["/dev/USB1"; "/etc/passwd"] strict_world_lost
  = (strict_world_lost, Ret false).
Proof.
  exact (test_serial_ports_skips_invalid 10 ["/dev/USB1"; "/etc/passwd"]
           strict_world_lost eq_refl eq_refl).
Defined.

Lemma controller_callback_max_loops_nonpositive_witness :
  VedirectController_read_data_callback 10 60 3600 (Some 0) demo_world
  = (set_this (mkDecoder "" "" 13 WAIT_HEADER ∅)
       (set_rx_pos 1 (set_ticks 2 demo_world)),
     Ret (Some true)).
Proof.
  apply (controller_callback_max_loops_nonpositive 9 60 3600 0 demo_world
           (mkCom "/dev/ttyUSB1" (Some 5%Q) (Some (mkSerial (Some 5%Q) true)))
           (mkSerial (Some 5%Q) true) x0d (mkDecoder "" "" 13 WAIT_HEADER ∅));
    reflexivity.
Defined.

(** * Properties of the set-up methods *)

Section SetupFacts.
Context {C : Collaborators} {S : SetupCollaborators}.

(** What [connect_to_serial] returns and leaves. *)
Lemma connect_to_serial_result (w w' : world) (o : outcome bool) :
  connect_to_serial w = (w', o) ->
  this w' = this w /\ calls w' = calls w /\ _ser_test w' = _ser_test w
  /\ has_serial_com w' = has_serial_com w
  /\ exists ok, o = Ret ok /\ (ok = false -> is_serial_ready w' = false).
Proof.
  unfold connect_to_serial, has_serial_com, is_serial_ready.
  destruct (_com w) as [c|] eqn:Ec.
  - destruct (com_is_ready c) eqn:Er.
    + intros H. injection H as <- <-. rewrite Ec. repeat split.
      exists true. split; [reflexivity | discriminate].
    + destruct (com_connect_default (outside w) c) as [[e c'] ok].
      destruct ok; intros H; injection H as <- <-; cbn; repeat split.
      * exists true. split; [reflexivity | discriminate].
      * exists (com_is_ready c'). split; [reflexivity | auto].
  - intros H. injection H as <- <-. rewrite Ec. repeat split.
    exists false. split; reflexivity.
Qed.

(** [init_serial_connection] returns [True] or raises, never
    [False]. With arguments that [is_serial_conf] rejects it raises
    [SettingInvalidException] and nothing has changed. Otherwise the old
    connection object is replaced before anything else: when the
    connection fails it raises [VedirectException] with the new, not
    ready, connection object in place. The decoder and the serial tests
    are never touched. *)
Lemma init_serial_connection_outcome (cf : conf) (w w' : world) (o : outcome bool) :
  init_serial_connection cf w = (w', o) ->
  this w' = this w /\ _ser_test w' = _ser_test w /\ calls w' = calls w
  /\ if is_serial_conf cf
     then has_serial_com w' = true
          /\ (o = Ret true
              \/ o = Raise VedirectException /\ is_serial_ready w' = false)
     else o = Raise SettingInvalidException /\ w' = w.
Proof.
  unfold init_serial_connection.
  destruct (is_serial_conf cf).
  - unfold bind at 1, modify at 1. cbv beta iota. unfold bind at 1.
    destruct (connect_to_serial _) as [w1 o1] eqn:E.
    apply connect_to_serial_result in E
      as (Hthis & Hcalls & Htest & Hcom & ok & -> & Hok).
    cbn in Hthis, Hcalls, Htest, Hcom.
    destruct ok; cbn [negb]; unfold raise, ret; intros H; injection H as <- <-;
      repeat split; auto.
  - unfold raise. intros H. injection H as <- <-. repeat split.
Qed.

(** X18. [init_serial_connection] returns [True] or raises, never
    [False]. With arguments that [is_serial_conf] rejects it raises
    [SettingInvalidException] and nothing has changed. Otherwise the old
    connection object is replaced before anything else: when the
    connection fails it raises [VedirectException] with the new, not
    ready, connection object in place. The decoder and the serial tests
    are never touched. *)
Theorem init_serial_connection_result (cf : conf) (w w' : world) (o : outcome bool) :
  init_serial_connection cf w = (w', o) ->
  this w' = this w /\ _ser_test w' = _ser_test w /\ calls w' = calls w
  /\ if is_serial_conf cf
     then has_serial_com w' = true
          /\ (o = Ret true
              \/ o = Raise VedirectException /\ is_serial_ready w' = false)
     else o = Raise SettingInvalidException /\ w' = w.
Proof.
  unfold init_serial_connection.
  destruct (is_serial_conf cf).
  - unfold bind at 1, modify at 1. cbv beta iota. unfold bind at 1.
    destruct (connect_to_serial _) as [w1 o1] eqn:E.
    apply connect_to_serial_result in E
      as (Hthis & Hcalls & Htest & Hcom & ok & -> & Hok).
    cbn in Hthis, Hcalls, Htest, Hcom.
    destruct ok; cbn [negb]; unfold raise, ret; intros H; injection H as <- <-;
      repeat split; auto.
  - unfold raise. intros H. injection H as <- <-. repeat split.
Qed.

(** X19. [init_settings] of the controller returns [True] or raises,
    never [False]: a failed connection leads into
    [wait_or_search_serial_connection], whose [True] or exception is the
    result. Arguments that [is_serial_conf] rejects raise
    [SettingInvalidException] without any search and change nothing; a
    failed connection on a controller without serial tests raises
    [VedirectException]. The callback is never invoked. *)
Theorem controller_init_settings_result (fuel : nat) (cf : conf) (wait_timeout : Q)
    (w w' : world) (o : outcome bool) :
  VedirectController_init_settings fuel cf wait_timeout w = (w', o) ->
  (forall b, o = Ret b -> b = true)
  /\ calls w' = calls w
  /\ (is_serial_conf cf = false -> o = Raise SettingInvalidException /\ w' = w)
  /\ (is_serial_conf cf = true -> has_serial_test w = false ->
      forall e, o = Raise e -> e = VedirectException).
Proof.
  unfold VedirectController_init_settings, try_except.
  destruct (init_serial_connection cf w) as [w1 o1] eqn:E.
  apply init_serial_connection_outcome in E as (Hthis & Htest & Hcalls & Hcf).
  destruct (is_serial_conf cf).
  - destruct Hcf as [Hcom [-> | [-> Hnr]]].
    + intros H. injection H as <- <-.
      split; [intros b Hb; injection Hb as <-; reflexivity|].
      split; [exact Hcalls|].
      split; [intros Hc; discriminate Hc|].
      intros _ _ e He. discriminate He.
    + cbn [caught_by_init_settings]. unfold bind at 1.
      destruct (wait_or_search_serial_connection fuel wait_timeout w1) as [w2 o2] eqn:Ew.
      pose proof (keeps_wait_or_search calls (Hf:=calls_frame) _ _ _ _ _ Ew) as Hc2.
      apply wait_or_search_outcome in Ew as [Hb Hnot].
      destruct o2 as [ok|e2|].
      * specialize (Hb ok eq_refl). subst ok. unfold ret. intros H.
        injection H as <- <-.
        split; [intros b Hb'; injection Hb' as <-; reflexivity|].
        split; [congruence|].
        split; [intros Hc; discriminate Hc|].
        intros _ _ e He. discriminate He.
      * intros H. injection H as <- <-.
        split; [intros b Hb'; discriminate Hb'|].
        split; [congruence|].
        split; [intros Hc; discriminate Hc|].
        intros _ Hnt e He. injection He as <-.
        assert (Hrs : is_ready_to_search_ports w1 = false).
        { unfold is_ready_to_search_ports, has_serial_test in *.
          rewrite Htest, Hnt. apply andb_false_r. }
        destruct (Hnot Hrs) as [Hraise _]. congruence.
      * intros H. injection H as <- <-.
        split; [intros b Hb'; discriminate Hb'|].
        split; [congruence|].
        split; [intros Hc; discriminate Hc|].
        intros _ _ e He. discriminate He.
  - destruct Hcf as [-> ->]. cbn [caught_by_init_settings].
    intros H. injection H as <- <-.
    split; [intros b Hb'; discriminate Hb'|].
    split; [reflexivity|].
    split; [intros _; split; reflexivity|].
    intros Hc. discriminate Hc.
Qed.

End SetupFacts.

(** Set up on [/dev/ttyUSB0], which does not open: [VedirectException],
    and the connection object is the new one. *)
Lemma init_serial_connection_result_witness :
  this (fst (init_serial_connection (S := demo_setup) "/dev/ttyUSB0" demo_world))
    = this demo_world
  /\ _ser_test (fst (init_serial_connection (S := demo_setup) "/dev/ttyUSB0" demo_world))
     = _ser_test demo_world
  /\ calls (fst (init_serial_connection (S := demo_setup) "/dev/ttyUSB0" demo_world))
     = calls demo_world
  /\ if is_serial_conf (SetupCollaborators := demo_setup) "/dev/ttyUSB0"
     then has_serial_com (fst (init_serial_connection (S := demo_setup) "/dev/ttyUSB0" demo_world))
          = true
          /\ (snd (init_serial_connection (S := demo_setup) "/dev/ttyUSB0" demo_world)
              = Ret true
              \/ snd (init_serial_connection (S := demo_setup) "/dev/ttyUSB0" demo_world)
                 = Raise VedirectException
                 /\ is_serial_ready
                      (fst (init_serial_connection (S := demo_setup) "/dev/ttyUSB0" demo_world))
                    = false)
     else snd (init_serial_connection (S := demo_setup) "/dev/ttyUSB0" demo_world)
          = Raise SettingInvalidException
          /\ fst (init_serial_connection (S := demo_setup) "/dev/ttyUSB0" demo_world)
             = demo_world.
Proof.
  apply (init_serial_connection_result (S := demo_setup) "/dev/ttyUSB0" demo_world).
  apply surjective_pairing.
Defined.

Example init_serial_connection_demo :
  snd (init_serial_connection (S := demo_setup) "/dev/ttyUSB0" demo_world)
    = Raise VedirectException
  /\ _com (fst (init_serial_connection (S := demo_setup) "/dev/ttyUSB0" demo_world))
     = Some (mkCom "/dev/ttyUSB0" (Some 5%Q) None)
  /\ snd (init_serial_connection (S := demo_setup) "/etc/bad_port" demo_world)
     = Raise SettingInvalidException.
Proof. repeat split; vm_compute; reflexivity. Qed.

(** The controller set up on [/dev/ttyUSB0]: the connection fails, the
    search finds [/dev/ttyUSB1], and [True] is returned. *)
Lemma controller_init_settings_result_witness :
  (forall b,
     snd (VedirectController_init_settings (S := demo_setup) 60 "/dev/ttyUSB0" 30 demo_world)
     = Ret b -> b = true)
  /\ calls (fst (VedirectController_init_settings (S := demo_setup) 60 "/dev/ttyUSB0" 30
                   demo_world))
     = calls demo_world
  /\ (is_serial_conf (SetupCollaborators := demo_setup) "/dev/ttyUSB0" = false ->
      snd (VedirectController_init_settings (S := demo_setup) 60 "/dev/ttyUSB0" 30 demo_world)
      = Raise SettingInvalidException
      /\ fst (VedirectController_init_settings (S := demo_setup) 60 "/dev/ttyUSB0" 30 demo_world)
         = demo_world)
  /\ (is_serial_conf (SetupCollaborators := demo_setup) "/dev/ttyUSB0" = true ->
      has_serial_test demo_world = false ->
      forall e,
        snd (VedirectController_init_settings (S := demo_setup) 60 "/dev/ttyUSB0" 30 demo_world)
        = Raise e -> e = VedirectException).
Proof.
  apply (controller_init_settings_result (S := demo_setup) 60 "/dev/ttyUSB0" 30 demo_world).
  apply surjective_pairing.
Defined.

Example controller_init_settings_demo :
  snd (VedirectController_init_settings (S := demo_setup) 60 "/dev/ttyUSB0" 30 demo_world)
    = Ret true
  /\ _com (fst (VedirectController_init_settings (S := demo_setup) 60 "/dev/ttyUSB0" 30
                  demo_world))
     = Some (mkCom "/dev/ttyUSB1" (Some 5%Q) (Some (mkSerial (Some 5%Q) true))).
Proof. split; vm_compute; reflexivity. Qed.
